(** * engineeringmetrics.adapters: flow logs, cycle time and the Jira cache

    A shallow embedding of [src/engineeringmetrics/adapters/adapters.py].
    Python objects that the code mutates through aliases (the dictionaries
    held by a [FlowLog], the list bound to the default argument of
    [JQLResult.__init__]) live in explicit stores and are named by their
    address; exceptions are values of [exn] threaded by a state-and-error
    monad. *)

From Stdlib Require Import ZArith Lia String Ascii List Sorted Permutation.
From stdpp Require Import base option list gmap strings pretty.

Local Open Scope string_scope.
Local Open Scope list_scope.
Local Open Scope Z_scope.

(** ** Exceptions and the state-and-error monad *)

(** The exception classes the module raises or lets through.  [KeyError]
    carries its argument: the missing key for a failed subscript, or the
    message the code builds. *)
Inductive exn : Type :=
| TypeError
| ValueError
| AttributeError
| KeyError (arg : string).

Definition result (A : Type) : Type := exn + A.

(** A computation over a mutable store [S]: the store comes back in both
    outcomes, so that what a raising call has already written is visible. *)
Definition M (S A : Type) : Type := S -> result A * S.

Definition ret {S A} (a : A) : M S A := fun s => (inr a, s).
Definition raise {S A} (e : exn) : M S A := fun s => (inl e, s).
Definition bind {S A B} (m : M S A) (k : A -> M S B) : M S B :=
  fun s => match m s with
           | (inr a, s') => k a s'
           | (inl e, s') => (inl e, s')
           end.
Definition get {S} : M S S := fun s => (inr s, s).
Definition put {S} (s : S) : M S unit := fun _ => (inr tt, s).
Definition modify {S} (f : S -> S) : M S unit := fun s => (inr tt, f s).
Definition lift {S A} (r : result A) : M S A := fun s => (r, s).

Notation "x <- m ;; k" := (bind m (fun x => k))
  (at level 100, m at next level, right associativity).
Notation "m ;;; k" := (bind m (fun _ => k))
  (at level 100, right associativity).

(** [for x in xs: body x] *)
Fixpoint for_each {S A} (xs : list A) (body : A -> M S unit) : M S unit :=
  match xs with
  | [] => ret tt
  | x :: xs' => body x ;;; for_each xs' body
  end.

(** ** Calendar dates and timestamps *)

(** [datetime.date] *)
Record date : Type := Date { year : Z; month : Z; day : Z }.

(** Days from 1970-01-01 to a date of the proleptic Gregorian calendar: the
    value numpy gives the date as a [datetime64[D]]. *)
Definition days_from_civil (d : date) : Z :=
  let y := if month d <=? 2 then year d - 1 else year d in
  let era := y / 400 in
  let yoe := y - era * 400 in
  let mp := if month d <=? 2 then month d + 9 else month d - 3 in
  let doy := (153 * mp + 2) / 5 + day d - 1 in
  let doe := yoe * 365 + yoe / 4 - yoe / 100 + doy in
  era * 146097 + doe - 719468.

(** [datetime.datetime] as dateutil's [parse] returns it for the timestamps
    Jira sends, which carry a UTC offset: a local calendar date, the time of
    day in microseconds, and the offset in minutes. *)
Record datetime : Type := Datetime {
  dt_date : date;          (* what [.date()] returns *)
  dt_micros : Z;           (* microseconds since local midnight *)
  dt_utcoffset : Z         (* minutes east of UTC *)
}.

(** The instant a timestamp denotes, in microseconds since the epoch;
    Python orders offset-aware datetimes by it. *)
Definition instant (t : datetime) : Z :=
  (days_from_civil (dt_date t) * 1440 - dt_utcoffset t) * 60000000 + dt_micros t.

(** ** numpy's [busday_count] with the default week mask and no holidays *)

Module Numpy.

(** Monday is 0; 1970-01-05 was a Monday. *)
Definition get_day_of_week (d : Z) : Z :=
  let r := Z.rem (d - 4) 7 in
  if r <? 0 then r + 7 else r.

(** The default week mask ["1111100"]. *)
Definition weekmask (dow : Z) : bool := dow <? 5.
Definition busdays_in_weekmask : Z := 5.

(** The loop that counts the days left after the whole weeks, one by one. *)
Fixpoint count_remaining (n : nat) (dow count : Z) : Z :=
  match n with
  | O => count
  | S n' =>
      count_remaining n'
        (if dow + 1 =? 7 then 0 else dow + 1)
        (if weekmask dow then count + 1 else count)
  end.

(** [apply_business_day_count] on two day numbers.  [shift_swapped] tells
    the two behaviours of the library apart: releases from 1.25 on move
    both ends one day forward after swapping them, so that the given end
    date stays excluded; earlier releases do not. *)
Definition busday_count (shift_swapped : bool) (date_begin date_end : Z) : Z :=
  if date_begin =? date_end then 0
  else
    let swapped := date_end <? date_begin in
    let b := if swapped
             then (if shift_swapped then date_end + 1 else date_end)
             else date_begin in
    let e := if swapped
             then (if shift_swapped then date_begin + 1 else date_begin)
             else date_end in
    let whole_weeks := Z.quot (e - b) 7 in
    let count := whole_weeks * busdays_in_weekmask in
    let b' := b + whole_weeks * 7 in
    let count :=
      if b' <? e
      then count_remaining (Z.to_nat (e - b')) (get_day_of_week b') count
      else count in
    if swapped then - count else count.

(** The reference count: the weekdays among the [n] days from [d] on. *)
Fixpoint weekdays_from (d : Z) (n : nat) : Z :=
  match n with
  | O => 0
  | S n' => (if weekmask (get_day_of_week d) then 1 else 0) + weekdays_from (d + 1) n'
  end.

End Numpy.

(** ** Python values *)

(** The values a flow-log dictionary holds in this model. *)
Inductive pyval : Type :=
| PyNone
| PyStr (s : string)
| PyInt (n : Z)
| PyDate (d : date)
| PyDatetime (t : datetime).

(** What is handed to [FlowLog.append]: a dictionary object, named by its
    address in the store, or a value that is not a dictionary. *)
Inductive pyobj : Type :=
| DictAt (a : nat)
| Scalar (v : pyval).

Definition zfill (width : nat) (s : string) : string :=
  String.concat EmptyString (replicate (width - String.length s) "0") +:+ s.

Definition date_isoformat (d : date) : string :=
  zfill 4 (pretty (year d)) +:+ "-" +:+ zfill 2 (pretty (month d))
    +:+ "-" +:+ zfill 2 (pretty (day d)).

Definition datetime_str (t : datetime) : string :=
  let secs := dt_micros t / 1000000 in
  let us := dt_micros t mod 1000000 in
  let off := Z.abs (dt_utcoffset t) in
  date_isoformat (dt_date t) +:+ " "
    +:+ zfill 2 (pretty (secs / 3600)) +:+ ":"
    +:+ zfill 2 (pretty (secs / 60 mod 60)) +:+ ":"
    +:+ zfill 2 (pretty (secs mod 60))
    +:+ (if us =? 0 then EmptyString else "." +:+ zfill 6 (pretty us))
    +:+ (if dt_utcoffset t <? 0 then "-" else "+")
    +:+ zfill 2 (pretty (off / 60)) +:+ ":" +:+ zfill 2 (pretty (off mod 60)).

(** The builtin [str]. *)
Definition py_str (v : pyval) : string :=
  match v with
  | PyNone => "None"
  | PyStr s => s
  | PyInt n => pretty n
  | PyDate d => date_isoformat d
  | PyDatetime t => datetime_str t
  end.

(** [d[k]] *)
Definition subscript {S} (d : gmap string pyval) (k : string) : M S pyval :=
  match d !! k with
  | Some v => ret v
  | None => raise (KeyError k)
  end.

(** [try: m except (classes): h] *)
Definition try_except {S A} (m : M S A) (handles : exn -> bool) (h : M S A) : M S A :=
  fun s => match m s with
           | (inl e, s') => if handles e then h s' else (inl e, s')
           | r => r
           end.

Definition is_AttributeError (e : exn) : bool :=
  match e with AttributeError => true | _ => false end.
Definition is_AttributeError_or_TypeError (e : exn) : bool :=
  match e with AttributeError | TypeError => true | _ => false end.

(** ** Stable sorting by an integer key ([list.sort(key=...)]) *)

Fixpoint insert_by {A} (key : A -> Z) (x : A) (l : list A) : list A :=
  match l with
  | [] => [x]
  | y :: l' => if key x <=? key y then x :: l else y :: insert_by key x l'
  end.

(** Each element, taken from the right, goes in front of the elements whose
    key is not smaller: equal keys keep their order. *)
Definition sort_by {A} (key : A -> Z) (l : list A) : list A :=
  foldr (insert_by key) [] l.

(** ** [FlowLog] *)

(** The dictionaries that exist, by address, and the elements of the one
    [FlowLog] list: addresses of dictionaries, so that a dictionary changed
    through another reference changes in the log too. *)
Record flow_store : Type := FlowStore {
  dicts : list (gmap string pyval);
  flow_log : list nat
}.

(** The dictionary at an address.  The addresses in use are those handed
    out by [new_dict]; any other reads as the empty dictionary. *)
Definition dict_at (s : flow_store) (a : nat) : gmap string pyval :=
  default ∅ (dicts s !! a).

(** [dict(...)]: a new dictionary object. *)
Definition new_dict (d : gmap string pyval) : M flow_store nat :=
  fun s => (inr (length (dicts s)),
            {| dicts := dicts s ++ [d]; flow_log := flow_log s |}).

(** [d[k] = v] on the dictionary at [a]. *)
Definition setitem (a : nat) (k : string) (v : pyval) : M flow_store unit :=
  modify (fun s => {| dicts := <[a := <[k := v]> (dict_at s a)]> (dicts s);
                      flow_log := flow_log s |}).

(** [entered_at.tzinfo]: only a datetime has the attribute. *)
Definition tzinfo {S} (v : pyval) : M S Z :=
  match v with
  | PyDatetime t => ret (dt_utcoffset t)
  | _ => raise AttributeError
  end.

(** [datetime.now(tz) - entered_at]: the difference exists for a datetime;
    its value is not used. *)
Definition now_minus {S} (tz : Z) (v : pyval) : M S unit :=
  match v with
  | PyDatetime _ => ret tt
  | _ => raise TypeError
  end.

(** The sort key [l['entered_at']] of every element, then the comparisons.
    The element just appended holds a datetime, so the comparisons succeed
    exactly when every other key is a datetime too. *)
Definition sort_key (d : gmap string pyval) : result pyval :=
  match d !! "entered_at" with
  | Some v => inr v
  | None => inl (KeyError "entered_at")
  end.

Fixpoint sort_keys (s : flow_store) (l : list nat) : result (list pyval) :=
  match l with
  | [] => inr []
  | a :: l' =>
      match sort_key (dict_at s a) with
      | inl e => inl e
      | inr v => match sort_keys s l' with
                 | inl e => inl e
                 | inr vs => inr (v :: vs)
                 end
      end
  end.

Fixpoint instants (vs : list pyval) : result (list Z) :=
  match vs with
  | [] => inr []
  | PyDatetime t :: vs' =>
      match instants vs' with
      | inl e => inl e
      | inr ks => inr (instant t :: ks)
      end
  | _ :: _ => inl TypeError
  end.

Definition sort_by_entered_at : M flow_store unit :=
  s <- get ;;
  vs <- lift (sort_keys s (flow_log s)) ;;
  ks <- lift (instants vs) ;;
  put {| dicts := dicts s;
         flow_log := (sort_by fst (zip ks (flow_log s))).*2 |}.

Module FlowLog.

Definition append (value : pyobj) : M flow_store unit :=
  (* value.keys(), where anything but a dictionary has no such attribute *)
  a <- try_except
         (match value with
          | DictAt a => ret a
          | Scalar _ => raise AttributeError
          end)
         is_AttributeError
         (raise TypeError) ;;
  s <- get ;;
  entered_at <- subscript (dict_at s a) "entered_at" ;;
  try_except
    (tz <- tzinfo entered_at ;; now_minus tz entered_at)
    is_AttributeError_or_TypeError
    (raise TypeError) ;;;
  state <- subscript (dict_at s a) "state" ;;
  setitem a "state" (PyStr (py_str state)) ;;;
  modify (fun s => {| dicts := dicts s; flow_log := flow_log s ++ [a] |}) ;;;
  sort_by_entered_at.

End FlowLog.

(** The entries of the log, in order, as the dictionaries they are now. *)
Definition timeline (s : flow_store) : list (gmap string pyval) :=
  dict_at s <$> flow_log s.

Definition entry_instant (d : gmap string pyval) : option Z :=
  match d !! "entered_at" with
  | Some (PyDatetime t) => Some (instant t)
  | _ => None
  end.

(** [d1] does not come after [d2]: both hold a timestamp and the first is
    not later than the second. *)
Definition entered_le (d1 d2 : gmap string pyval) : Prop :=
  match entry_instant d1, entry_instant d2 with
  | Some k1, Some k2 => k1 <= k2
  | _, _ => False
  end.

(** Ascending by [entered_at]: every entry holds a timestamp that is not
    later than that of any entry after it. *)
Definition ascending (tl : list (gmap string pyval)) : Prop :=
  Forall (fun d => is_Some (entry_instant d)) tl /\ StronglySorted entered_le tl.

(** ** What the code asks of numpy *)

(** The numpy in use: which of the two behaviours on swapped dates it has,
    and its reader of ISO 8601 strings, which returns whether the unit of
    the value read casts safely to days and the value in days, if it is a
    time at all. *)
Record numpy : Type := Np {
  shift_swapped : bool;
  parse_iso_8601 : string -> result (bool * option Z)
}.

(** An argument of [busday_count] as a [datetime64]: a date has unit [D]; a
    datetime has unit [us], which does not cast safely to [D]; [None] is
    not-a-time; an integer has no unit to be read in. *)
Definition as_datetime64 (np : numpy) (v : pyval) : result (bool * option Z) :=
  match v with
  | PyDate d => inr (true, Some (days_from_civil d))
  | PyDatetime t => inr (false, Some (instant t / 86400000000))
  | PyNone => inr (true, None)
  | PyStr s => parse_iso_8601 np s
  | PyInt _ => inl ValueError
  end.

(** [np.busday_count(begindates, enddates)] *)
Definition np_busday_count (np : numpy) (begindates enddates : pyval) : result Z :=
  match as_datetime64 np begindates with
  | inl e => inl e
  | inr (safe_b, b) =>
      match as_datetime64 np enddates with
      | inl e => inl e
      | inr (safe_e, e) =>
          if negb (safe_b && safe_e) then inl TypeError
          else match b, e with
               | Some b, Some e => inr (Numpy.busday_count (shift_swapped np) b e)
               | _, _ => inl ValueError
               end
      end
  end.

(** ** [JiraIssue] *)

(** An entry [item] of a change-log history. *)
Record change_item : Type := ChangeItem {
  field : string;
  toString : pyval
}.

(** A history of the change log; [history_created] is the timestamp
    dateutil's [parse] reads from [history.created]. *)
Record history : Type := History {
  history_created : datetime;
  history_items : list change_item
}.

(** The issue as the Jira client hands it over.  [raw_created] and
    [raw_updated] stand for the timestamps [parse] reads from the strings
    [fields.created] and [fields.updated]; [raw_issuetype] and
    [raw_changelog] are [None] where the attribute is missing;
    [raw_priority] is the text [fields.priority.__str__()] gives. *)
Record raw_issue : Type := RawIssue {
  raw_issuetype : option string;
  raw_id : string;
  raw_key : string;
  raw_permalink : string;
  raw_summary : string;
  raw_labels : list string;
  raw_created : datetime;
  raw_updated : datetime;
  raw_resolution : option string;
  raw_resolutiondate : option string;
  raw_assignee : option string;
  raw_description : option string;
  raw_priority : string;
  raw_status : string;
  raw_fixVersions : list string;
  raw_changelog : option (list history)
}.

(** The keys of the dictionary a [JiraIssue] is, and its [_flow_log]. *)
Record JiraIssue : Type := MkJiraIssue {
  ttype : string;
  id_ : string;
  key_ : string;
  url : string;
  summary : string;
  labels : list string;
  created : datetime;
  updated_at : option datetime;
  resolution : option string;
  resolutiondate : option string;
  assignee : option string;
  description : option string;
  priority : string;
  status : string;
  fixVersion : option string;
  _flow_log : flow_store
}.

(** [s.split(':')[0]] *)
Fixpoint before_colon (s : string) : string :=
  match s with
  | EmptyString => EmptyString
  | String c s' => if Ascii.eqb c ":" then EmptyString else String c (before_colon s')
  end.

(** [v.date()] *)
Definition date_of {S} (v : pyval) : M S pyval :=
  match v with
  | PyDatetime t => ret (PyDate (dt_date t))
  | _ => raise AttributeError
  end.

(** A loop that carries a local variable from one round to the next. *)
Fixpoint for_fold {S A B} (xs : list A) (acc : B) (body : B -> A -> M S B) : M S B :=
  match xs with
  | [] => ret acc
  | x :: xs' => acc' <- body acc x ;; for_fold xs' acc' body
  end.

Section JiraIssue_init.

Variable np : numpy.
(** [datetime.now().date()] *)
Variable today : date.

(** [d['duration'] = np.busday_count(d['entered_at'].date(), until)] for
    the dictionary at [a]. *)
Definition close_interval (a : nat) (until : pyval) : M flow_store unit :=
  s <- get ;;
  entered_at <- subscript (dict_at s a) "entered_at" ;;
  from <- date_of entered_at ;;
  n <- lift (np_busday_count np from until) ;;
  setitem a "duration" (PyInt n).

(** The body of the two nested loops for one item of one history. *)
Definition record_change (h : history) (previous_item : option nat) (item : change_item)
  : M flow_store (option nat) :=
  if String.eqb (field item) "status" then
    new_log_item <- new_dict {[ "entered_at" := PyDatetime (history_created h);
                                "state" := PyStr (py_str (toString item)) ]} ;;
    match previous_item with
    | Some p =>
        s <- get ;;
        entered_at <- subscript (dict_at s new_log_item) "entered_at" ;;
        until <- date_of entered_at ;;
        close_interval p until
    | None => ret tt
    end ;;;
    FlowLog.append (DictAt new_log_item) ;;;
    ret (Some new_log_item)
  else ret previous_item.

Definition build_flow_log (issue : raw_issue) : M flow_store unit :=
  seed <- new_dict {[ "entered_at" := PyDatetime (raw_created issue);
                      "state" := PyStr "Created" ]} ;;
  FlowLog.append (DictAt seed) ;;;
  try_except
    (histories <- match raw_changelog issue with
                  | Some hs => ret hs
                  | None => raise AttributeError
                  end ;;
     previous_item <-
       for_fold histories None
         (fun prev h => for_fold (history_items h) prev (record_change h)) ;;
     match previous_item with
     | Some p => close_interval p (PyDate today)
     | None => ret tt
     end)
    is_AttributeError
    (ret tt).

(** [JiraIssue.__init__] *)
Definition JiraIssue_init (issue : raw_issue) : result JiraIssue :=
  match build_flow_log issue {| dicts := []; flow_log := [] |} with
  | (inl e, _) => inl e
  | (inr _, fl) =>
      inr {| ttype := default "Ticket" (raw_issuetype issue);
             id_ := raw_id issue;
             key_ := raw_key issue;
             url := raw_permalink issue;
             summary := raw_summary issue;
             labels := raw_labels issue;
             created := raw_created issue;
             updated_at := None;
             resolution := raw_resolution issue;
             resolutiondate := raw_resolutiondate issue;
             assignee := raw_assignee issue;
             description := raw_description issue;
             priority := before_colon (raw_priority issue);
             status := raw_status issue;
             fixVersion := head (raw_fixVersions issue);
             _flow_log := fl |}
  end.

(** The property [cycleTime]. *)
Definition cycleTime (t : JiraIssue) : result Z :=
  np_busday_count np
    (PyDatetime (created t))
    (match resolutiondate t with Some s => PyStr s | None => PyNone end).

End JiraIssue_init.

(** The flow log of a ticket, as the list of its entries. *)
Definition flow_timeline (t : JiraIssue) : list (gmap string pyval) :=
  timeline (_flow_log t).

(** ** [JQLResult], [JiraProject] and the [Jira] cache *)

(** [JIRA.project] as far as the code reads it. *)
Record project_data : Type := ProjectData {
  project_key : string;
  project_name : string
}.

(** The Jira client: [project(pid)] and
    [search_issues(jql, maxResults=..., expand='changelog')], where
    [maxResults=False] is [None]. *)
Record JIRA : Type := Client {
  project : string -> project_data;
  search_issues : string -> option nat -> list raw_issue
}.

(** A result holds the address of its list of issues, not the list. *)
Record JQLResult : Type := MkJQLResult {
  _query : string;
  _label : string;
  _issues : nat
}.

Record JiraProject : Type := MkJiraProject {
  as_JQLResult :> JQLResult;
  _key : string;
  _name : string
}.

(** What a key of [_datastore] is bound to: one of the two dictionaries made
    by [Jira.__init__], or a query result. *)
Inductive stored : Type :=
| StoredDict (m : gmap string JiraProject)
| StoredResult (r : JQLResult).

(** The list objects that exist, by address, and the [_datastore] of the
    [Jira] instance. *)
Record world : Type := World {
  lists : list (list JiraIssue);
  _datastore : gmap string stored
}.

(** The list [[]] that the default of [issues] in [JQLResult.__init__] is
    bound to: made once, when the [def] is executed. *)
Definition default_issues : nat := 0%nat.

(** The store once the module is loaded, before any [Jira] is made. *)
Definition module_loaded : world :=
  {| lists := [[]]; _datastore := ∅ |}.

Definition dquote : string := String (ascii_of_nat 34) EmptyString.

Definition is_KeyError (e : exn) : bool :=
  match e with KeyError _ => true | _ => false end.

(** [JQLResult.__init__(query, label, issues)], [issues] being [None] when
    the argument is left out. *)
Definition JQLResult_init (query label : string) (issues : option nat) : JQLResult :=
  {| _query := query; _label := label; _issues := default default_issues issues |}.

(** [JiraProject.__init__]: the call to [super().__init__] passes no list. *)
Definition JiraProject_init (project : project_data) (query_string : string) : JiraProject :=
  {| as_JQLResult := JQLResult_init query_string (project_name project) None;
     _key := project_key project;
     _name := project_name project |}.

(** The list a result's [issues] property returns, as it is now. *)
Definition issues (w : world) (r : JQLResult) : list JiraIssue :=
  default [] (lists w !! _issues r).

(** [l.append(x)] on the list at [a]. *)
Definition list_append (a : nat) (x : JiraIssue) : M world unit :=
  modify (fun w => {| lists := <[a := default [] (lists w !! a) ++ [x]]> (lists w);
                      _datastore := _datastore w |}).

(** A new list object. *)
Definition new_list (l : list JiraIssue) : M world nat :=
  fun w => (inr (length (lists w)),
            {| lists := lists w ++ [l]; _datastore := _datastore w |}).

Definition set_datastore (k : string) (v : stored) : M world unit :=
  modify (fun w => {| lists := lists w; _datastore := <[k := v]> (_datastore w) |}).

Section Jira.

Variable np : numpy.
Variable today : date.
(** [self._client] *)
Variable jiraclient : JIRA.

(** [Jira.__init__] *)
Definition Jira_init : M world unit :=
  modify (fun w => {| lists := lists w;
                      _datastore := {[ "issues" := StoredDict ∅;
                                       "projects" := StoredDict ∅ ]} |}).

Definition project_query (pid : string) : string :=
  "project = " +:+ dquote +:+ pid +:+ dquote +:+ " ORDER BY priority DESC".

(** The body of the loop of [_getJiraIssuesForProjects] for one id. *)
Definition fetch_project (issues_by_project : gmap string JiraProject) (pid : string)
  : M world (gmap string JiraProject) :=
  let pdata := project jiraclient pid in
  let query_string := project_query pid in
  let proj := JiraProject_init pdata query_string in
  let found := search_issues jiraclient query_string (Some 10%nat) in
  for_each found
    (fun issue =>
       kt <- lift (JiraIssue_init np today issue) ;;
       list_append (_issues proj) kt) ;;;
  w <- get ;;
  if (0 <? length (issues w proj))%nat
  then ret (<[pid := proj]> issues_by_project)
  else ret issues_by_project.

Definition _getJiraIssuesForProjects (project_ids : list string)
  : M world (gmap string JiraProject) :=
  for_fold project_ids ∅ fetch_project.

(** [{**m}] : only a dictionary unpacks. *)
Definition as_mapping (v : stored) : M world (gmap string JiraProject) :=
  match v with
  | StoredDict m => ret m
  | StoredResult _ => raise TypeError
  end.

(** [self._datastore[k]] *)
Definition datastore_get (k : string) : M world stored :=
  w <- get ;;
  match _datastore w !! k with
  | Some v => ret v
  | None => raise (KeyError k)
  end.

Definition populate_projects (projectids : list string)
  : M world (gmap string JiraProject) :=
  projects <- _getJiraIssuesForProjects projectids ;;
  old <- datastore_get "projects" ;;
  old <- as_mapping old ;;
  (* {**old, **projects}: the later binding of a key wins *)
  set_datastore "projects" (StoredDict (projects ∪ old)) ;;;
  ret projects.

Definition default_label : string := "JQL".

(** [populate_from_jql(query, label)]; [query] is [None] when left out. *)
Definition populate_from_jql (query : option string) (label : string)
  : M world JQLResult :=
  match query with
  | None => raise ValueError
  | Some query =>
      let found := search_issues jiraclient query None in
      wrapped <- for_fold found []
                   (fun acc i => kt <- lift (JiraIssue_init np today i) ;;
                                 ret (acc ++ [kt])) ;;
      address <- new_list wrapped ;;
      let query_result := JQLResult_init query label (Some address) in
      set_datastore (_label query_result) (StoredResult query_result) ;;;
      ret query_result
  end.

Definition get_query_result (label : string) : M world stored :=
  datastore_get label.

(** What [get_project] hands back with [return]: a project, or an
    exception object. *)
Inductive returned : Type :=
| ReturnedProject (p : JiraProject)
| ReturnedException (e : exn).

Definition not_cached_message (pid : string) : string :=
  "No project with key " +:+ pid
    +:+ " in the cache. Have you called Jira.populate_projects([" +:+ dquote
    +:+ pid +:+ dquote +:+ "])?".

Definition get_project (pid : string) : M world returned :=
  try_except
    (projects <- datastore_get "projects" ;;
     match projects with
     | StoredDict m =>
         match m !! pid with
         | Some p => ret (ReturnedProject p)
         | None => raise (KeyError pid)
         end
     | StoredResult _ => raise TypeError
     end)
    is_KeyError
    (ret (ReturnedException (KeyError (not_cached_message pid)))).

(** The property [projects]. *)
Definition projects : M world stored := datastore_get "projects".

End Jira.

(** ** Notions used to state the properties *)

(** The two checks of [FlowLog.append] on its argument: it is a dictionary
    whose [entered_at] is a timestamp, and it has a [state]. *)
Definition passes_validation (s : flow_store) (value : pyobj) : bool :=
  match value with
  | DictAt a =>
      match dict_at s a !! "entered_at", dict_at s a !! "state" with
      | Some (PyDatetime _), Some _ => true
      | _, _ => false
      end
  | Scalar _ => false
  end.

(** Appending one value after the other. *)
Definition append_all (values : list pyobj) : M flow_store unit :=
  for_each values FlowLog.append.

(** The sort key of the dictionary at an address, where it is a timestamp. *)
Definition key_of (s : flow_store) (a : nat) : Z :=
  default 0 (entry_instant (dict_at s a)).

(** Every element of the log holds a timestamp. *)
Definition log_ok (s : flow_store) : Prop :=
  Forall (fun a => is_Some (entry_instant (dict_at s a))) (flow_log s).

(** The store after the writes of a successful [append] of the dictionary
    at [a], before the sort. *)
Definition appended (s : flow_store) (a : nat) (state : pyval) : flow_store :=
  {| dicts := <[a := <["state" := PyStr (py_str state)]> (dict_at s a)]> (dicts s);
     flow_log := flow_log s ++ [a] |}.

(** The entry holds a number of days as its [duration]. *)
Definition has_duration (d : gmap string pyval) : Prop :=
  exists n, d !! "duration" = Some (PyInt n).

(** What holds of the store while [JiraIssue.__init__] builds the flow log,
    [previous_item] being the local variable of that name: every dictionary
    holds a timestamp and a state; the log holds addresses of dictionaries,
    among them address 0, the seeded entry, which has no duration and keeps
    the time of creation; every
    other element of the log but [previous_item] has its duration. *)
Record building (created : datetime) (s : flow_store) (previous_item : option nat)
  : Prop := Building {
  bld_valid : forall a, (a < length (dicts s))%nat ->
                        passes_validation s (DictAt a) = true;
  bld_range : Forall (fun a => (a < length (dicts s))%nat) (flow_log s);
  bld_seed_state : dict_at s 0 !! "state" = Some (PyStr "Created");
  bld_seed_at : dict_at s 0 !! "entered_at" = Some (PyDatetime created);
  bld_seed_open : dict_at s 0 !! "duration" = None;
  bld_seed_in : 0%nat ∈ flow_log s;
  bld_previous : forall p, previous_item = Some p ->
                           (0 < p < length (dicts s))%nat;
  bld_closed : forall a, a ∈ flow_log s -> a <> 0%nat ->
                         previous_item <> Some a -> has_duration (dict_at s a)
}.

(** The items of the change log that report a change of status, in the
    order the two loops of [JiraIssue.__init__] meet them. *)
Definition status_changes (issue : raw_issue) : list change_item :=
  match raw_changelog issue with
  | Some histories =>
      concat ((fun h => filter (fun i => field i = "status") (history_items h))
                <$> histories)
  | None => []
  end.

(** ** Sample data *)

(** A timestamp in UTC, on the hour. *)
Definition utc (y m d hour : Z) : datetime :=
  {| dt_date := Date y m d; dt_micros := hour * 3600000000; dt_utcoffset := 0 |}.

(** A numpy of a release from 1.25 on; no sample hands it a string that is a
    time, so its reader refuses every string. *)
Definition numpy_sample : numpy :=
  {| shift_swapped := true; parse_iso_8601 := fun _ => inl ValueError |}.

Definition today_sample : date := Date 2024 1 10.

(** A ticket created on Monday 2024-01-01, moved to "In Progress" on
    Wednesday 2024-01-03, not resolved. *)
Definition ticket_in_progress : raw_issue :=
  {| raw_issuetype := Some "Story";
     raw_id := "10001";
     raw_key := "P1-1";
     raw_permalink := "https://jira.example/browse/P1-1";
     raw_summary := "A story";
     raw_labels := [];
     raw_created := utc 2024 1 1 10;
     raw_updated := utc 2024 1 3 9;
     raw_resolution := None;
     raw_resolutiondate := None;
     raw_assignee := None;
     raw_description := None;
     raw_priority := "High: Must fix immediately";
     raw_status := "In Progress";
     raw_fixVersions := [];
     raw_changelog :=
       Some [ {| history_created := utc 2024 1 3 9;
                 history_items := [ {| field := "status";
                                       toString := PyStr "In Progress" |} ] |} ] |}.

(** What a timeline shows of each entry: its state and its duration. *)
Definition states_and_durations (tl : list (gmap string pyval))
  : list (option pyval * option pyval) :=
  (fun d => (d !! "state", d !! "duration")) <$> tl.

(** A store with three dictionaries and an empty log: an entry with a
    timestamp but no state, an entry with a state but no timestamp, and an
    entry whose [entered_at] is a string. *)
Definition malformed_entries : flow_store :=
  {| dicts := [ {[ "entered_at" := PyDatetime (utc 2024 1 1 10) ]};
                {[ "state" := PyStr "Open" ]};
                {[ "entered_at" := PyStr "yesterday"; "state" := PyStr "Open" ]} ];
     flow_log := [] |}.

(** A store with three well-formed dictionaries, the first and the last
    with the same timestamp, the second earlier than both. *)
Definition three_entries : flow_store :=
  {| dicts := [ {[ "entered_at" := PyDatetime (utc 2024 1 3 9); "state" := PyStr "B" ]};
                {[ "entered_at" := PyDatetime (utc 2024 1 1 10); "state" := PyStr "A" ]};
                {[ "entered_at" := PyDatetime (utc 2024 1 3 9); "state" := PyInt 7 ]} ];
     flow_log := [] |}.

(** A client that knows one ticket, in project P1, and nothing else. *)
Definition client_sample : JIRA :=
  {| project := fun pid => {| project_key := pid; project_name := pid +:+ " project" |};
     search_issues := fun jql _ =>
       if String.eqb jql (project_query "P1") then [ticket_in_progress] else [] |}.

(** The store after [Jira(jiraclient)] in a program that has done nothing
    else. *)
Definition jira_sample : world := (Jira_init module_loaded).2.

(** The tickets of a search, each wrapped by [JiraIssue]. *)
Definition wrapped (np : numpy) (today : date) (found : list raw_issue)
  (kts : list JiraIssue) : Prop :=
  Forall2 (fun issue kt => JiraIssue_init np today issue = inr kt) found kts.

(** ** Notions used to state further properties *)

(** The sort key of an entry: the instant of its [entered_at]. *)
Definition entry_key (d : gmap string pyval) : Z :=
  default 0 (entry_instant d).


(** The changes of status of a ticket as the two loops of
    [JiraIssue.__init__] meet them: when each happened, and the name of the
    state entered, as [str] gives it. *)
Definition status_events (issue : raw_issue) : list (datetime * string) :=
  match raw_changelog issue with
  | Some histories =>
      concat ((fun h => (fun i => (history_created h, py_str (toString i)))
                          <$> filter (fun i => field i = "status") (history_items h))
                <$> histories)
  | None => []
  end.

(** An entry with no duration yet, and an entry closed at a date. *)
Definition open_entry (t : datetime) (state : string) : gmap string pyval :=
  {[ "entered_at" := PyDatetime t; "state" := PyStr state ]}.

Definition closed_entry (np : numpy) (t : datetime) (state : string) (until : date)
  : gmap string pyval :=
  <["duration" := PyInt (Numpy.busday_count (shift_swapped np)
                           (days_from_civil (dt_date t)) (days_from_civil until))]>
    (open_entry t state).

(** The entries for a sequence of status changes: each is closed at the
    date of the change that follows it in the sequence; the last is closed
    at [final], or open when there is no such date. *)
Fixpoint event_entries (np : numpy) (events : list (datetime * string))
  (final : option date) : list (gmap string pyval) :=
  match events with
  | [] => []
  | (t, state) :: rest =>
      match rest with
      | (t', _) :: _ => closed_entry np t state (dt_date t')
      | [] => match final with
              | Some until => closed_entry np t state until
              | None => open_entry t state
              end
      end :: event_entries np rest final
  end.

(** The sort key of the entry at an address, from the times alone: address
    0 is the seeded entry, address [i + 1] the entry of the [i]-th change. *)
Definition event_key (created : datetime) (events : list (datetime * string))
  (a : nat) : Z :=
  default 0 (instant <$> (created :: events.*1) !! a).

(** The store once the changes [events] have gone through the loops, with
    the local variable [previous_item]: the seeded entry and the entries of
    the changes, the last one still open, at the addresses in the order of
    creation; the log is the stable sort of all the addresses. *)
Definition recorded (np : numpy) (created : datetime)
  (events : list (datetime * string)) (s : flow_store) (previous_item : option nat)
  : Prop :=
  dicts s = open_entry created "Created" :: event_entries np events None /\
  flow_log s = sort_by (event_key created events) (seq 0 (S (length events))) /\
  previous_item = match events with [] => None | _ => Some (length events) end.

(** The changes of status come in the order of their dates, none after
    today. *)
Fixpoint chronological (events : list (datetime * string)) (today : date) : Prop :=
  match events with
  | [] => True
  | (t, _) :: rest =>
      days_from_civil (dt_date t) <=
        match rest with
        | (t', _) :: _ => days_from_civil (dt_date t')
        | [] => days_from_civil today
        end /\
      chronological rest today
  end.

(** The number an entry holds as its duration; 0 when it holds none. *)
Definition duration_of (d : gmap string pyval) : Z :=
  match d !! "duration" with
  | Some (PyInt n) => n
  | _ => 0
  end.

Definition Zsum (l : list Z) : Z := foldr Z.add 0 l.

(** Further sample tickets: one without a change log, and one that went
    to "In Progress" on Wednesday 2024-01-03 and, in a history that also
    changes the assignee, to "Done" on Monday 2024-01-08. *)
Definition ticket_without_changelog : raw_issue :=
  {| raw_issuetype := None;
     raw_id := "10002";
     raw_key := "P1-2";
     raw_permalink := "https://jira.example/browse/P1-2";
     raw_summary := "A ticket";
     raw_labels := ["ops"];
     raw_created := utc 2024 1 2 8;
     raw_updated := utc 2024 1 2 8;
     raw_resolution := None;
     raw_resolutiondate := None;
     raw_assignee := None;
     raw_description := None;
     raw_priority := "Low";
     raw_status := "Open";
     raw_fixVersions := ["1.0"; "1.1"];
     raw_changelog := None |}.

Definition ticket_done : raw_issue :=
  {| raw_issuetype := Some "Bug";
     raw_id := "10003";
     raw_key := "P1-3";
     raw_permalink := "https://jira.example/browse/P1-3";
     raw_summary := "A bug";
     raw_labels := [];
     raw_created := utc 2024 1 1 10;
     raw_updated := utc 2024 1 8 16;
     raw_resolution := Some "Fixed";
     raw_resolutiondate := Some "2024-01-08T16:00:00.000+0000";
     raw_assignee := Some "bob";
     raw_description := None;
     raw_priority := "High: Must fix immediately";
     raw_status := "Done";
     raw_fixVersions := [];
     raw_changelog :=
       Some [ {| history_created := utc 2024 1 3 9;
                 history_items := [ {| field := "status";
                                       toString := PyStr "In Progress" |} ] |};
              {| history_created := utc 2024 1 8 16;
                 history_items := [ {| field := "assignee"; toString := PyStr "bob" |};
                                    {| field := "status"; toString := PyStr "Done" |} ] |} ] |}.


(** The projects [_getJiraIssuesForProjects] keeps, given the Jira client,
    how many tickets the shared list holds when the loop starts, the ids
    and the projects kept so far: a project is kept when the shared list,
    with the tickets found for it and for the ids before it, is not
    empty. *)
Fixpoint kept (client : JIRA) (held : nat) (ids : list string)
  (acc : gmap string JiraProject) : gmap string JiraProject :=
  match ids with
  | [] => acc
  | pid :: rest =>
      let held' :=
        (held + length (search_issues client (project_query pid) (Some 10%nat)))%nat in
      kept client held' rest
        (if (0 <? held')%nat
         then <[pid := JiraProject_init (project client pid) (project_query pid)]> acc
         else acc)
  end.

(** Everything the searches for the ids return, in the order of the ids. *)
Definition found_for (client : JIRA) (ids : list string) : list raw_issue :=
  concat ((fun pid => search_issues client (project_query pid) (Some 10%nat)) <$> ids).

(** The store after [populate_projects(["P1"])] on the new [Jira] of
    [jira_sample]; the shared list of a store; and the store after
    [populate_from_jql("project = P1", "projects")] on the new [Jira]. *)
Definition jira_after_P1 : world :=
  (populate_projects numpy_sample today_sample client_sample ["P1"] jira_sample).2.

Definition shared_list (w : world) : list JiraIssue :=
  default [] (lists w !! default_issues).

Definition jira_projects_overwritten : world :=
  (populate_from_jql numpy_sample today_sample client_sample
     (Some "project = P1") "projects" jira_sample).2.

(** A store whose log holds an entry that has no [entered_at] (any more),
    beside a well-formed dictionary not yet appended. *)
Definition log_with_broken_entry : flow_store :=
  {| dicts := [ {[ "state" := PyStr "Open" ]};
                {[ "entered_at" := PyDatetime (utc 2024 1 1 10); "state" := PyStr "A" ]} ];
     flow_log := [0%nat] |}.

(** ** [FlowLog.append] when a timestamp may lack a UTC offset *)

(** The timestamps read from Jira carry an offset, and the definitions above
    take them so.  [FlowLog.append] itself also takes a datetime without
    [tzinfo]; this module has the method over both kinds, for the one
    property that depends on the difference: Python refuses to order an
    offset-naive datetime against an offset-aware one. *)
Module Tz.

(** A value of a flow-log dictionary: one of the values above, whose
    datetimes carry an offset, or an offset-naive datetime, given by its
    calendar date and the microseconds since midnight. *)
Inductive value : Type :=
| Base (v : pyval)
| NaiveDatetime (d : date) (micros : Z).

Definition time_str (micros : Z) : string :=
  let secs := micros / 1000000 in
  let us := micros mod 1000000 in
  zfill 2 (pretty (secs / 3600)) +:+ ":"
    +:+ zfill 2 (pretty (secs / 60 mod 60)) +:+ ":"
    +:+ zfill 2 (pretty (secs mod 60))
    +:+ (if us =? 0 then EmptyString else "." +:+ zfill 6 (pretty us)).

(** The builtin [str]. *)
Definition str (v : value) : string :=
  match v with
  | Base v => py_str v
  | NaiveDatetime d micros => date_isoformat d +:+ " " +:+ time_str micros
  end.

(** The dictionaries, by address, and the elements of the log. *)
Record store : Type := Store {
  dicts : list (gmap string value);
  log : list nat
}.

Definition dict_at (s : store) (a : nat) : gmap string value :=
  default ∅ (dicts s !! a).

Definition setitem (a : nat) (k : string) (v : value) : M store unit :=
  modify (fun s => {| dicts := <[a := <[k := v]> (dict_at s a)]> (dicts s);
                      log := log s |}).

Definition subscript {S} (d : gmap string value) (k : string) : M S value :=
  match d !! k with
  | Some v => ret v
  | None => raise (KeyError k)
  end.

(** [entered_at.tzinfo]: the offset of an aware datetime, [None] for a
    naive one; nothing else has the attribute. *)
Definition tzinfo {S} (v : value) : M S (option Z) :=
  match v with
  | Base (PyDatetime t) => ret (Some (dt_utcoffset t))
  | NaiveDatetime _ _ => ret None
  | Base _ => raise AttributeError
  end.

(** [datetime.now(tz) - entered_at]: [now(tz)] carries an offset exactly
    when [tz] is one, and the difference of two datetimes exists when both
    or neither carry an offset. *)
Definition now_minus {S} (tz : option Z) (v : value) : M S unit :=
  match v, tz with
  | Base (PyDatetime _), Some _ => ret tt
  | NaiveDatetime _ _, None => ret tt
  | _, _ => raise TypeError
  end.

(** What [<] compares of a datetime: whether it carries an offset, and the
    instant it denotes, or, for a naive one, its local time. *)
Definition datetime_key (v : value) : option (bool * Z) :=
  match v with
  | Base (PyDatetime t) => Some (true, instant t)
  | NaiveDatetime d micros => Some (false, days_from_civil d * 86400000000 + micros)
  | Base _ => None
  end.

Definition sort_key (d : gmap string value) : result value :=
  match d !! "entered_at" with
  | Some v => inr v
  | None => inl (KeyError "entered_at")
  end.

Fixpoint sort_keys (s : store) (l : list nat) : result (list value) :=
  match l with
  | [] => inr []
  | a :: l' =>
      match sort_key (dict_at s a) with
      | inl e => inl e
      | inr v => match sort_keys s l' with
                 | inl e => inl e
                 | inr vs => inr (v :: vs)
                 end
      end
  end.

(** The keys as numbers, when all are datetimes that carry an offset
    ([aware] is [true]) or all are datetimes that do not. *)
Fixpoint keys_of (aware : bool) (vs : list value) : result (list Z) :=
  match vs with
  | [] => inr []
  | v :: vs' =>
      match datetime_key v with
      | Some (aware', k) =>
          if Bool.eqb aware aware'
          then match keys_of aware vs' with
               | inl e => inl e
               | inr ks => inr (k :: ks)
               end
          else inl TypeError
      | None => inl TypeError
      end
  end.

(** The comparisons of the sort succeed when the keys are datetimes of one
    kind; a naive key beside an aware one raises [TypeError].  As above,
    the element just appended holds a datetime. *)
Definition comparable_keys (vs : list value) : result (list Z) :=
  match vs with
  | [] => inr []
  | v :: _ =>
      match datetime_key v with
      | Some (aware, _) => keys_of aware vs
      | None => inl TypeError
      end
  end.

(** [self.sort(key=...)].  When a key is missing or a comparison raises,
    the log is left as it was before the sort; Python leaves the same
    elements, in the same order when the log has two of them (the one
    comparison raises before anything is moved). *)
Definition sort_by_entered_at : M store unit :=
  s <- get ;;
  vs <- lift (sort_keys s (log s)) ;;
  ks <- lift (comparable_keys vs) ;;
  put {| dicts := dicts s;
         log := (sort_by fst (zip ks (log s))).*2 |}.

(** [FlowLog.append] *)
Definition append (value : pyobj) : M store unit :=
  a <- try_except
         (match value with
          | DictAt a => ret a
          | Scalar _ => raise AttributeError
          end)
         is_AttributeError
         (raise TypeError) ;;
  s <- get ;;
  entered_at <- subscript (dict_at s a) "entered_at" ;;
  try_except
    (tz <- tzinfo entered_at ;; now_minus tz entered_at)
    is_AttributeError_or_TypeError
    (raise TypeError) ;;;
  state <- subscript (dict_at s a) "state" ;;
  setitem a "state" (Base (PyStr (str state))) ;;;
  modify (fun s => {| dicts := dicts s; log := log s ++ [a] |}) ;;;
  sort_by_entered_at.

Definition append_all (values : list pyobj) : M store unit :=
  for_each values append.

(** The entries of the log, in order. *)
Definition timeline (s : store) : list (gmap string value) :=
  dict_at s <$> log s.

Definition entry_key (d : gmap string value) : option (bool * Z) :=
  d !! "entered_at" ≫= datetime_key.

(** [d1] does not come after [d2]: both hold a datetime, of one kind, and
    the first is not later than the second. *)
Definition entered_le (d1 d2 : gmap string value) : Prop :=
  match entry_key d1, entry_key d2 with
  | Some (aware1, k1), Some (aware2, k2) => aware1 = aware2 /\ k1 <= k2
  | _, _ => False
  end.

Definition ascending (tl : list (gmap string value)) : Prop :=
  Forall (fun d => is_Some (entry_key d)) tl /\ StronglySorted entered_le tl.

(** The two checks of [append]: a dictionary whose [entered_at] is a
    datetime, with or without offset, and which has a state. *)
Definition passes_validation (s : store) (value : pyobj) : bool :=
  match value with
  | DictAt a =>
      match entry_key (dict_at s a), dict_at s a !! "state" with
      | Some _, Some _ => true
      | _, _ => false
      end
  | Scalar _ => false
  end.

(** The value passes the checks with a timestamp of the given kind. *)
Definition validated_as (aware : bool) (s : store) (value : pyobj) : bool :=
  match value with
  | DictAt a =>
      match entry_key (dict_at s a), dict_at s a !! "state" with
      | Some (aware', _), Some _ => Bool.eqb aware aware'
      | _, _ => false
      end
  | Scalar _ => false
  end.


Definition key_of (s : store) (a : nat) : Z :=
  default 0 (snd <$> entry_key (dict_at s a)).

(** The store after the writes of a successful [append], before the sort. *)
Definition appended (s : store) (a : nat) (state : value) : store :=
  {| dicts := <[a := <["state" := Base (PyStr (str state))]> (dict_at s a)]> (dicts s);
     log := log s ++ [a] |}.


Definition three_naive : store :=
  {| dicts := [ {[ "entered_at" := NaiveDatetime (Date 2024 1 3) 32400000000;
                   "state" := Base (PyStr "B") ]};
                {[ "entered_at" := NaiveDatetime (Date 2024 1 1) 36000000000;
                   "state" := Base (PyStr "A") ]};
                {[ "entered_at" := NaiveDatetime (Date 2024 1 3) 32400000000;
                   "state" := Base (PyInt 7) ]} ];
     log := [] |}.

End Tz.

(** A store whose datetimes all carry an offset, read as a store of [Tz]. *)
Definition tz_store (s : flow_store) : Tz.store :=
  {| Tz.dicts := (fun d : gmap string pyval => Tz.Base <$> d) <$> dicts s;
     Tz.log := flow_log s |}.

(** The outcome of a method on such a store, read likewise. *)
Definition tz_outcome {A} (r : result A * flow_store) : result A * Tz.store :=
  (r.1, tz_store r.2).

(** *** Facts about the business-day count *)

Lemma get_day_of_week_mod d : Numpy.get_day_of_week d = (d - 4) mod 7.
Proof.
  unfold Numpy.get_day_of_week.
  pose proof (Z.mod_pos_bound (d - 4) 7 ltac:(lia)) as Hm.
  pose proof (Z.div_mod (d - 4) 7 ltac:(lia)) as Hd.
  destruct (Z_le_gt_dec 0 (d - 4)) as [Hpos|Hneg].
  - rewrite Z.rem_mod_nonneg by lia.
    destruct (Z.ltb_spec ((d - 4) mod 7) 0); lia.
  - assert (Hrem : Z.rem (d - 4) 7 = - ((4 - d) mod 7)).
    { replace (d - 4) with (- (4 - d)) by lia.
      rewrite Z.rem_opp_l', Z.rem_mod_nonneg by lia. reflexivity. }
    cbv zeta. rewrite Hrem.
    pose proof (Z.mod_pos_bound (4 - d) 7 ltac:(lia)) as Hm'.
    pose proof (Z.div_mod (4 - d) 7 ltac:(lia)) as Hd'.
    destruct (Z.ltb_spec (- ((4 - d) mod 7)) 0); lia.
Qed.

Lemma get_day_of_week_range d : 0 <= Numpy.get_day_of_week d < 7.
Proof. rewrite get_day_of_week_mod. apply Z.mod_pos_bound. lia. Qed.

Lemma get_day_of_week_succ d :
  Numpy.get_day_of_week (d + 1) =
  (if Numpy.get_day_of_week d + 1 =? 7 then 0 else Numpy.get_day_of_week d + 1).
Proof.
  rewrite !get_day_of_week_mod.
  pose proof (Z.mod_pos_bound (d - 4) 7) as Hm.
  pose proof (Z.mod_pos_bound (d + 1 - 4) 7) as Hm'.
  pose proof (Z.div_mod (d - 4) 7) as Hd.
  pose proof (Z.div_mod (d + 1 - 4) 7) as Hd'.
  destruct (Z.eqb_spec ((d - 4) mod 7 + 1) 7); lia.
Qed.

Lemma count_remaining_weekdays n d c :
  Numpy.count_remaining n (Numpy.get_day_of_week d) c = c + Numpy.weekdays_from d n.
Proof.
  revert d c.
  induction n as [|n IH]; intros d c;
    cbn [Numpy.count_remaining Numpy.weekdays_from].
  - lia.
  - rewrite <- get_day_of_week_succ, IH.
    destruct (Numpy.weekmask (Numpy.get_day_of_week d)); lia.
Qed.

Lemma weekdays_from_app d n m :
  Numpy.weekdays_from d (n + m) =
  Numpy.weekdays_from d n + Numpy.weekdays_from (d + Z.of_nat n) m.
Proof.
  revert d. induction n as [|n IH]; intros d.
  - cbn [Nat.add Numpy.weekdays_from]. replace (d + Z.of_nat 0) with d by lia. lia.
  - cbn [Nat.add Numpy.weekdays_from]. rewrite IH.
    replace (d + 1 + Z.of_nat n) with (d + Z.of_nat (S n)) by lia. lia.
Qed.

Lemma weekdays_from_bounds d n : 0 <= Numpy.weekdays_from d n <= Z.of_nat n.
Proof.
  revert d. induction n as [|n IH]; intros d; cbn [Numpy.weekdays_from].
  - lia.
  - specialize (IH (d + 1)). destruct (Numpy.weekmask _); lia.
Qed.

Lemma weekdays_from_week d : Numpy.weekdays_from d 7 = 5.
Proof.
  cbn [Numpy.weekdays_from].
  rewrite !get_day_of_week_succ.
  pose proof (get_day_of_week_range d) as Hr.
  assert (Hc : Numpy.get_day_of_week d = 0 \/ Numpy.get_day_of_week d = 1 \/
               Numpy.get_day_of_week d = 2 \/ Numpy.get_day_of_week d = 3 \/
               Numpy.get_day_of_week d = 4 \/ Numpy.get_day_of_week d = 5 \/
               Numpy.get_day_of_week d = 6) by lia.
  destruct Hc as [-> | [-> | [-> | [-> | [-> | [-> | ->]]]]]]; reflexivity.
Qed.

Lemma weekdays_from_weeks d k :
  Numpy.weekdays_from d (7 * k) = 5 * Z.of_nat k.
Proof.
  revert d. induction k as [|k IH]; intros d.
  - reflexivity.
  - replace (7 * S k)%nat with (7 + 7 * k)%nat by lia.
    rewrite weekdays_from_app, weekdays_from_week, IH. lia.
Qed.

(** Counting forward, the whole-weeks shortcut agrees with counting every
    day of the half-open range. *)
Lemma busday_count_forward fx b e :
  b <= e -> Numpy.busday_count fx b e = Numpy.weekdays_from b (Z.to_nat (e - b)).
Proof.
  intros Hle. unfold Numpy.busday_count, Numpy.busdays_in_weekmask.
  destruct (Z.eqb_spec b e) as [->|Hne].
  { replace (e - e) with 0 by lia. reflexivity. }
  destruct (Z.ltb_spec e b) as [Hlt|_]; [lia|].
  set (w := Z.quot (e - b) 7).
  assert (Hw : e - b = 7 * w + Z.rem (e - b) 7) by (apply Z.quot_rem'; lia).
  pose proof (Z.rem_bound_pos (e - b) 7 ltac:(lia) ltac:(lia)) as Hr.
  assert (Hw0 : 0 <= w) by (apply Z.quot_pos; lia).
  replace (Z.to_nat (e - b))
    with (7 * Z.to_nat w + Z.to_nat (e - (b + w * 7)))%nat by lia.
  rewrite weekdays_from_app, weekdays_from_weeks.
  replace (b + Z.of_nat (7 * Z.to_nat w)) with (b + w * 7) by lia.
  destruct (Z.ltb_spec (b + w * 7) e) as [Hlt|Hge].
  - rewrite count_remaining_weekdays. lia.
  - replace (Z.to_nat (e - (b + w * 7))) with O by lia. simpl. lia.
Qed.

Lemma busday_count_backward fx b e :
  e < b ->
  Numpy.busday_count fx b e =
  - Numpy.weekdays_from (if fx then e + 1 else e) (Z.to_nat (b - e)).
Proof.
  intros Hlt.
  pose proof (busday_count_forward fx (if fx then e + 1 else e)
                (if fx then b + 1 else b)) as Hf.
  unfold Numpy.busday_count in *.
  destruct (Z.eqb_spec b e) as [->|Hne]; [lia|].
  destruct (Z.ltb_spec e b) as [_|Hge]; [|lia].
  destruct fx.
  - destruct (Z.eqb_spec (e + 1) (b + 1)); [lia|].
    destruct (Z.ltb_spec (b + 1) (e + 1)); [lia|].
    rewrite Hf by lia. do 3 f_equal. lia.
  - destruct (Z.eqb_spec e b); [lia|].
    destruct (Z.ltb_spec b e); [lia|].
    rewrite Hf by lia. reflexivity.
Qed.

(** *** Facts about the stable sort *)

Lemma insert_by_Permutation {A} (key : A -> Z) x l :
  Permutation (insert_by key x l) (x :: l).
Proof.
  induction l as [|y l IH]; simpl.
  - reflexivity.
  - destruct (key x <=? key y).
    + reflexivity.
    + rewrite IH. apply perm_swap.
Qed.

Lemma sort_by_Permutation {A} (key : A -> Z) l :
  Permutation (sort_by key l) l.
Proof.
  induction l as [|x l IH]; simpl.
  - reflexivity.
  - rewrite insert_by_Permutation. by constructor.
Qed.

Lemma insert_by_sorted {A} (key : A -> Z) x l :
  StronglySorted (fun a b => key a <= key b) l ->
  StronglySorted (fun a b => key a <= key b) (insert_by key x l).
Proof.
  induction 1 as [|y l Hs IH Hall]; simpl.
  - repeat constructor.
  - destruct (Z.leb_spec (key x) (key y)) as [Hle|Hgt].
    + constructor; [by constructor|].
      constructor; [done|].
      eapply Forall_impl; [exact Hall|]. intros z Hz. simpl in Hz. lia.
    + constructor; [done|].
      rewrite insert_by_Permutation. constructor; [lia | done].
Qed.

Lemma sort_by_sorted {A} (key : A -> Z) l :
  StronglySorted (fun a b => key a <= key b) (sort_by key l).
Proof.
  induction l as [|x l IH]; simpl.
  - constructor.
  - by apply insert_by_sorted.
Qed.

Lemma sort_by_cons {A} (key : A -> Z) x l :
  sort_by key (x :: l) = insert_by key x (sort_by key l).
Proof. reflexivity. Qed.

Lemma insert_by_zip {A} (key : A -> Z) x (ps : list (Z * A)) :
  Forall (fun p => p.1 = key p.2) ps ->
  (insert_by fst (key x, x) ps).*2 = insert_by key x ps.*2.
Proof.
  induction 1 as [|[k y] ps Hk _ IH]; [done|].
  cbn [fst snd] in Hk. subst k.
  cbn [insert_by fst]. rewrite !fmap_cons. cbn [snd insert_by].
  destruct (key x <=? key y); [by rewrite !fmap_cons|].
  by rewrite fmap_cons, IH.
Qed.

(** Sorting the elements paired with their keys is sorting by the key. *)
Lemma sort_by_zip {A} (key : A -> Z) l :
  (sort_by fst (zip (key <$> l) l)).*2 = sort_by key l.
Proof.
  induction l as [|x l IH]; [done|].
  rewrite fmap_cons. change (zip (key x :: (key <$> l)) (x :: l))
    with ((key x, x) :: zip (key <$> l) l).
  rewrite !sort_by_cons, insert_by_zip, IH; [done|].
  rewrite (sort_by_Permutation fst).
  clear. induction l; simpl; by constructor.
Qed.

Lemma insert_by_ext {A} (f g : A -> Z) x l :
  (forall y, f y = g y) -> insert_by f x l = insert_by g x l.
Proof.
  intros Hfg. induction l as [|y l IH]; simpl; [done|].
  by rewrite !Hfg, IH.
Qed.

Lemma sort_by_ext {A} (f g : A -> Z) l :
  (forall y, f y = g y) -> sort_by f l = sort_by g l.
Proof.
  intros Hfg. induction l as [|x l IH]; [done|].
  by rewrite !sort_by_cons, IH, (insert_by_ext f g).
Qed.

(** *** Facts about [FlowLog.append] *)

(** The outcomes of [append] on a dictionary, by what it holds. *)
Lemma append_dict s a :
  FlowLog.append (DictAt a) s =
  match dict_at s a !! "entered_at" with
  | None => (inl (KeyError "entered_at"), s)
  | Some (PyDatetime t) =>
      match dict_at s a !! "state" with
      | None => (inl (KeyError "state"), s)
      | Some state => sort_by_entered_at (appended s a state)
      end
  | Some _ => (inl TypeError, s)
  end.
Proof.
  unfold FlowLog.append, bind, try_except, ret, raise, get, subscript, setitem,
    modify, tzinfo, now_minus, appended.
  simpl.
  destruct (dict_at s a !! "entered_at") as [[]|]; simpl; try reflexivity.
  destruct (dict_at s a !! "state"); reflexivity.
Qed.

Lemma append_scalar s v : FlowLog.append (Scalar v) s = (inl TypeError, s).
Proof. reflexivity. Qed.

Lemma dict_at_appended s a state b :
  dict_at (appended s a state) b =
  if decide (a = b) then
    (if decide (a < length (dicts s))%nat
     then <["state" := PyStr (py_str state)]> (dict_at s a) else ∅)
  else dict_at s b.
Proof.
  unfold dict_at, appended. simpl.
  destruct (decide (a = b)) as [<-|Hne].
  - destruct (decide (a < length (dicts s))%nat) as [Hlt|Hge].
    + by rewrite list_lookup_insert_eq.
    + rewrite list_insert_ge by lia.
      by rewrite (lookup_ge_None_2 (dicts s) a) by lia.
  - by rewrite list_lookup_insert_ne.
Qed.

Lemma entry_instant_appended s a state b :
  entry_instant (dict_at (appended s a state) b) = entry_instant (dict_at s b).
Proof.
  rewrite dict_at_appended. unfold entry_instant.
  destruct (decide (a = b)) as [<-|]; [|done].
  destruct (decide (a < length (dicts s))%nat) as [Hlt|Hge].
  - by rewrite lookup_insert_ne.
  - unfold dict_at. by rewrite (lookup_ge_None_2 (dicts s) a) by lia.
Qed.

Lemma key_of_appended s a state b : key_of (appended s a state) b = key_of s b.
Proof. unfold key_of. by rewrite entry_instant_appended. Qed.

Lemma sort_keys_instants s l :
  Forall (fun a => is_Some (entry_instant (dict_at s a))) l ->
  exists vs, sort_keys s l = inr vs /\ instants vs = inr (key_of s <$> l).
Proof.
  induction 1 as [|a l [k Hk] _ (vs & Hvs & Hks)]; simpl.
  - by exists [].
  - unfold key_of at 1. rewrite Hvs, Hk. unfold entry_instant, sort_key in *.
    destruct (dict_at s a !! "entered_at") as [[]|]; try done.
    eexists. split; [reflexivity|]. simpl. rewrite Hks. by simplify_eq.
Qed.

(** The sort succeeds on a log whose elements all hold a timestamp, and
    leaves the stable sort of the log by the instant. *)
Lemma sort_by_entered_at_ok s :
  log_ok s ->
  sort_by_entered_at s =
  (inr tt, {| dicts := dicts s; flow_log := sort_by (key_of s) (flow_log s) |}).
Proof.
  intros Hok. destruct (sort_keys_instants s (flow_log s) Hok) as (vs & Hvs & Hks).
  unfold sort_by_entered_at, bind, get, lift, put. simpl.
  rewrite Hvs, Hks. by rewrite sort_by_zip.
Qed.

Lemma passes_validation_dict s a :
  passes_validation s (DictAt a) = true ->
  exists t state, dict_at s a !! "entered_at" = Some (PyDatetime t) /\
                  dict_at s a !! "state" = Some state.
Proof.
  unfold passes_validation.
  destruct (dict_at s a !! "entered_at") as [[]|]; try done.
  destruct (dict_at s a !! "state"); try done. eauto.
Qed.

Lemma log_ok_appended s a state t :
  log_ok s -> dict_at s a !! "entered_at" = Some (PyDatetime t) ->
  log_ok (appended s a state).
Proof.
  intros Hok Ht. unfold log_ok.
  change (flow_log (appended s a state)) with (flow_log s ++ [a]).
  apply Forall_app. split.
  - eapply Forall_impl; [exact Hok|]. intros b Hb. by rewrite entry_instant_appended.
  - constructor; [|constructor]. rewrite entry_instant_appended.
    unfold entry_instant. rewrite Ht. eauto.
Qed.

(** A value that passes the checks is appended, and the log is sorted
    again. *)
Lemma append_valid s value :
  log_ok s -> passes_validation s value = true ->
  exists a state,
    value = DictAt a /\ dict_at s a !! "state" = Some state /\
    FlowLog.append value s =
    (inr tt, {| dicts := dicts (appended s a state);
                flow_log := sort_by (key_of s) (flow_log s ++ [a]) |}).
Proof.
  intros Hok Hv. destruct value as [a|v]; [|done].
  destruct (passes_validation_dict s a Hv) as (t & state & Ht & Hst).
  exists a, state. split; [done|]. split; [done|].
  rewrite append_dict, Ht, Hst, sort_by_entered_at_ok
    by (by eapply log_ok_appended).
  do 2 f_equal. apply sort_by_ext, key_of_appended.
Qed.

Lemma StronglySorted_Forall_impl {A} (R R' : A -> A -> Prop) (P : A -> Prop) l :
  (forall x y, P x -> P y -> R x y -> R' x y) ->
  Forall P l -> StronglySorted R l -> StronglySorted R' l.
Proof.
  intros HR HP Hs. induction Hs as [|x l Hs IH Hall]; [constructor|].
  apply Forall_cons in HP as [Hx HP].
  constructor; [by apply IH|].
  rewrite Forall_forall in Hall, HP |- *. intros y Hy.
  apply HR; [done|by apply HP|by apply Hall].
Qed.

Lemma StronglySorted_fmap_by {A B} (R : B -> B -> Prop) (f : A -> B) l :
  StronglySorted (fun a b => R (f a) (f b)) l -> StronglySorted R (f <$> l).
Proof.
  induction 1 as [|x l Hs IH Hall]; [constructor|].
  rewrite fmap_cons. constructor; [done|]. by rewrite Forall_fmap.
Qed.

(** A log whose elements hold timestamps and which is in the order of the
    stable sort reads as an ascending timeline. *)
Lemma sorted_log_ascending s :
  log_ok s ->
  StronglySorted (fun a b => key_of s a <= key_of s b) (flow_log s) ->
  ascending (timeline s).
Proof.
  intros Hok Hs. unfold ascending, timeline. split.
  - rewrite Forall_fmap. exact Hok.
  - apply StronglySorted_fmap_by.
    eapply StronglySorted_Forall_impl; [|exact Hok|exact Hs].
    intros a b [ka Ha] [kb Hb]. unfold key_of, entered_le. rewrite Ha, Hb. done.
Qed.

(** One successful append: the outcome, with what the later steps need. *)
Lemma append_valid_step s value :
  log_ok s -> passes_validation s value = true ->
  exists s',
    FlowLog.append value s = (inr tt, s') /\
    log_ok s' /\
    ascending (timeline s') /\
    length (flow_log s') = S (length (flow_log s)) /\
    length (dicts s') = length (dicts s) /\
    (forall v, passes_validation s v = true -> passes_validation s' v = true).
Proof.
  intros Hok Hv.
  destruct (append_valid s value Hok Hv) as (a & state & -> & Hst & Happ).
  destruct (passes_validation_dict s a Hv) as (t & state' & Ht & Hst').
  eexists. split; [exact Happ|].
  set (s' := {| dicts := dicts (appended s a state);
                flow_log := sort_by (key_of s) (flow_log s ++ [a]) |}).
  assert (Hd : forall b, dict_at s' b = dict_at (appended s a state) b) by done.
  assert (Hk : forall b, key_of s' b = key_of s b).
  { intros b. unfold key_of. by rewrite Hd, entry_instant_appended. }
  assert (Hok' : log_ok s').
  { unfold log_ok. simpl. rewrite sort_by_Permutation.
    eapply Forall_impl; [exact (log_ok_appended s a state t Hok Ht)|].
    intros b Hb. by rewrite Hd. }
  split; [exact Hok'|]. split; [|split; [|split]].
  - apply sorted_log_ascending; [exact Hok'|].
    simpl. rewrite (sort_by_ext (key_of s) (key_of s')) by done.
    apply sort_by_sorted.
  - simpl. rewrite sort_by_Permutation, length_app. simpl. lia.
  - simpl. by rewrite length_insert.
  - intros [b|v] Hb; [|done].
    destruct (passes_validation_dict s b Hb) as (tb & stb & Htb & Hstb).
    unfold passes_validation. rewrite Hd, dict_at_appended.
    destruct (decide (a = b)) as [<-|]; [|by rewrite Htb, Hstb].
    destruct (decide (a < length (dicts s))%nat) as [Hlt|Hge].
    + by rewrite lookup_insert_ne, lookup_insert_eq, Htb.
    + unfold dict_at in Htb. by rewrite (lookup_ge_None_2 (dicts s) a) in Htb by lia.
Qed.

(** The order of the log when every timestamp carries a UTC offset, as
    those read from Jira do.  Take a log whose elements hold such
    timestamps (the empty log of a new [FlowLog] is one) and any sequence
    of values that pass the checks of [append], in any order and with any
    ties among the timestamps.  Then appending any number of them, one
    after the other, succeeds (the sort never raises), and after every
    append the timeline is ascending by [entered_at] and one entry longer.
    Datetimes without an offset are the subject of [Tz]. *)
Theorem flow_log_sorted_after_every_append :
  forall (s0 : flow_store) (values : list pyobj),
    log_ok s0 ->
    Forall (fun v => passes_validation s0 v = true) values ->
    forall n, (0 < n <= length values)%nat ->
      exists s,
        append_all (take n values) s0 = (inr tt, s) /\
        ascending (timeline s) /\
        length (flow_log s) = (length (flow_log s0) + n)%nat.
Proof.
  intros s0 values Hok Hvals n. revert s0 values Hok Hvals.
  induction n as [|n IH]; intros s0 values Hok Hvals Hn; [lia|].
  destruct values as [|v values]; [simpl in Hn; lia|].
  apply Forall_cons in Hvals as [Hv Hvals].
  destruct (append_valid_step s0 v Hok Hv) as (s1 & Happ & Hok1 & Hasc & Hlen & _ & Hkeep).
  unfold append_all. cbn [take for_each]. unfold bind at 1. rewrite Happ.
  destruct n as [|n'].
  - exists s1. rewrite take_0. simpl. split; [done|]. split; [done|]. lia.
  - destruct (IH s1 values Hok1) as (s & Hrun & Hs & Hl).
    + eapply Forall_impl; [exact Hvals|]. intros w Hw. by apply Hkeep.
    + simpl in Hn. lia.
    + exists s. split; [exact Hrun|]. split; [done|]. lia.
Qed.

(** *** Facts about the construction of the flow log *)

Lemma building_log_ok c s prev : building c s prev -> log_ok s.
Proof.
  intros [Hv Hr _ _ _ _ _ _]. unfold log_ok.
  eapply Forall_impl; [exact Hr|]. intros a Ha. simpl in Ha.
  destruct (passes_validation_dict s a (Hv a Ha)) as (t & st & Ht & _).
  unfold entry_instant. rewrite Ht. eauto.
Qed.

Lemma dict_at_new s d a :
  dict_at {| dicts := dicts s ++ [d]; flow_log := flow_log s |} a =
  if decide (a < length (dicts s))%nat then dict_at s a
  else if decide (a = length (dicts s)) then d else ∅.
Proof.
  unfold dict_at. simpl.
  destruct (decide (a < length (dicts s))%nat) as [Hlt|Hge].
  - by rewrite lookup_app_l.
  - rewrite lookup_app_r by lia.
    destruct (decide (a = length (dicts s))) as [->|Hne].
    + by rewrite Nat.sub_diag.
    + destruct (a - length (dicts s))%nat as [|k] eqn:Hk; [lia|done].
Qed.

Lemma building_new_dict c s prev t state :
  building c s prev ->
  let d : gmap string pyval :=
    {[ "entered_at" := PyDatetime t; "state" := PyStr state ]} in
  let s1 := {| dicts := dicts s ++ [d]; flow_log := flow_log s |} in
  new_dict d s = (inr (length (dicts s)), s1) /\
  building c s1 prev /\
  dict_at s1 (length (dicts s)) = d.
Proof.
  intros [Hv Hr Hst Hat Hop Hin Hp Hc] d s1.
  assert (Hlen : length (dicts s1) = S (length (dicts s))).
  { unfold s1. simpl. rewrite length_app. simpl. lia. }
  assert (Hold : forall a, (a < length (dicts s))%nat -> dict_at s1 a = dict_at s a).
  { intros a Ha. unfold s1. rewrite dict_at_new. by rewrite decide_True. }
  assert (Hnew : dict_at s1 (length (dicts s)) = d).
  { unfold s1. rewrite dict_at_new.
    rewrite decide_False by lia. by rewrite decide_True. }
  assert (H0 : (0 < length (dicts s))%nat).
  { rewrite Forall_forall in Hr. by apply (Hr 0%nat). }
  split; [reflexivity|]. split; [|exact Hnew].
  constructor.
  - intros a Ha. destruct (decide (a < length (dicts s))%nat) as [Hlt|Hge].
    + specialize (Hv a Hlt). unfold passes_validation in *. by rewrite Hold.
    + assert (a = length (dicts s)) as -> by lia.
      unfold passes_validation. rewrite Hnew. unfold d.
      rewrite lookup_insert_eq.
      rewrite lookup_insert_ne by done. by rewrite lookup_singleton_eq.
  - eapply Forall_impl; [exact Hr|]. intros a Ha. simpl in *. lia.
  - by rewrite Hold.
  - by rewrite Hold.
  - by rewrite Hold.
  - exact Hin.
  - intros p Hpp. specialize (Hp p Hpp). lia.
  - intros a Ha Ha0 Hap. rewrite Forall_forall in Hr.
    rewrite Hold by (by apply Hr). by apply Hc.
Qed.

Lemma close_interval_run np p d s t :
  dict_at s p !! "entered_at" = Some (PyDatetime t) ->
  close_interval np p (PyDate d) s =
  (inr tt,
   {| dicts := <[p := <["duration" :=
                          PyInt (Numpy.busday_count (shift_swapped np)
                                   (days_from_civil (dt_date t))
                                   (days_from_civil d))]> (dict_at s p)]> (dicts s);
      flow_log := flow_log s |}).
Proof.
  intros Ht. unfold close_interval, bind, get, subscript, date_of, lift, setitem,
    modify, ret.
  rewrite Ht. reflexivity.
Qed.

Lemma dict_at_insert s p d l a :
  (p < length (dicts s))%nat ->
  dict_at {| dicts := <[p := d]> (dicts s); flow_log := l |} a =
  if decide (p = a) then d else dict_at s a.
Proof.
  intros Hp. unfold dict_at. simpl.
  destruct (decide (p = a)) as [<-|Hne].
  - by rewrite list_lookup_insert_eq.
  - by rewrite list_lookup_insert_ne.
Qed.

Lemma building_close c np p d s :
  building c s (Some p) ->
  exists s2 t,
    dict_at s p !! "entered_at" = Some (PyDatetime t) /\
    close_interval np p (PyDate d) s = (inr tt, s2) /\
    building c s2 None /\
    length (dicts s2) = length (dicts s) /\
    dict_at s2 p !! "duration" =
      Some (PyInt (Numpy.busday_count (shift_swapped np)
                     (days_from_civil (dt_date t)) (days_from_civil d))) /\
    (forall a, a <> p -> dict_at s2 a = dict_at s a) /\
    flow_log s2 = flow_log s.
Proof.
  intros [Hv Hr Hst Hat Hop Hin Hp Hc].
  destruct (Hp p eq_refl) as [Hp0 Hplt].
  destruct (passes_validation_dict s p (Hv p Hplt)) as (t & st & Ht & Hs).
  eexists. exists t. split; [exact Ht|].
  split; [by apply close_interval_run|].
  match goal with |- building _ ?s2 _ /\ _ => set (s2' := s2) end.
  assert (Hd : forall a, dict_at s2' a =
                 if decide (p = a) then <["duration" :=
                          PyInt (Numpy.busday_count (shift_swapped np)
                                   (days_from_civil (dt_date t))
                                   (days_from_civil d))]> (dict_at s p)
                 else dict_at s a).
  { intros a. unfold s2'. by rewrite dict_at_insert. }
  assert (Hlen : length (dicts s2') = length (dicts s)).
  { unfold s2'. simpl. by rewrite length_insert. }
  split; [|split; [exact Hlen|split]].
  - constructor.
    + intros a Ha. rewrite Hlen in Ha. specialize (Hv a Ha).
      unfold passes_validation in *. rewrite Hd.
      destruct (decide (p = a)) as [<-|]; [|done].
      by rewrite !lookup_insert_ne.
    + rewrite Hlen. exact Hr.
    + rewrite Hd. by rewrite decide_False by lia.
    + rewrite Hd. by rewrite decide_False by lia.
    + rewrite Hd. by rewrite decide_False by lia.
    + exact Hin.
    + done.
    + intros a Ha Ha0 _. rewrite Hd.
      destruct (decide (p = a)) as [<-|Hne].
      * eexists. by rewrite lookup_insert_eq.
      * apply Hc; [done|done|congruence].
  - rewrite Hd, decide_True by done. by rewrite lookup_insert_eq.
  - split; [|done]. intros a Ha. rewrite Hd. by rewrite decide_False.
Qed.

Lemma building_append c s n :
  building c s None -> (0 < n < length (dicts s))%nat ->
  exists s3,
    FlowLog.append (DictAt n) s = (inr tt, s3) /\
    building c s3 (Some n) /\
    length (dicts s3) = length (dicts s) /\
    length (flow_log s3) = S (length (flow_log s)) /\
    (forall a k, k <> "state" -> dict_at s3 a !! k = dict_at s a !! k).
Proof.
  intros Hb [Hn0 Hn].
  pose proof (building_log_ok c s None Hb) as Hok.
  destruct Hb as [Hv Hr Hst Hat Hop Hin Hp Hc].
  destruct (append_valid s (DictAt n) Hok (Hv n Hn)) as (a & state & Ha & Hstate & Happ).
  injection Ha as <-.
  eexists. split; [exact Happ|].
  match goal with |- building _ ?s3 _ /\ _ => set (s3' := s3) end.
  assert (Hd : forall b, dict_at s3' b =
                 if decide (n = b) then <["state" := PyStr (py_str state)]> (dict_at s n)
                 else dict_at s b).
  { intros b. change (dict_at s3' b) with (dict_at (appended s n state) b).
    rewrite dict_at_appended. destruct (decide (n = b)); [|done].
    by rewrite decide_True. }
  assert (Hlen : length (dicts s3') = length (dicts s)).
  { unfold s3'. simpl. by rewrite length_insert. }
  assert (Hperm : flow_log s3' ≡ₚ flow_log s ++ [n]).
  { unfold s3'. simpl. apply sort_by_Permutation. }
  assert (Hkeys : forall b k, k <> "state" -> dict_at s3' b !! k = dict_at s b !! k).
  { intros b k Hk. rewrite Hd. destruct (decide (n = b)) as [<-|]; [|done].
    by rewrite lookup_insert_ne. }
  split; [|split; [exact Hlen|split; [|exact Hkeys]]].
  - constructor.
    + intros b Hb. rewrite Hlen in Hb. specialize (Hv b Hb).
      destruct (passes_validation_dict s b Hv) as (tb & stb & Htb & Hstb).
      unfold passes_validation. rewrite Hkeys, Htb by done.
      rewrite Hd. destruct (decide (n = b)) as [<-|].
      * by rewrite lookup_insert_eq.
      * by rewrite Hstb.
    + rewrite Hperm, Hlen. apply Forall_app. split; [done|].
      by repeat constructor.
    + rewrite Hd. by rewrite decide_False by lia.
    + by rewrite Hkeys.
    + by rewrite Hkeys.
    + rewrite Hperm. apply elem_of_app. by left.
    + intros p [= <-]. lia.
    + intros b Hb Hb0 Hbn. rewrite Hperm in Hb.
      apply elem_of_app in Hb as [Hb|Hb].
      * destruct (Hc b Hb Hb0) as [k Hk]; [done|].
        exists k. by rewrite Hkeys.
      * apply list_elem_of_singleton in Hb. congruence.
  - rewrite Hperm, length_app. simpl. lia.
Qed.

Lemma bind_ok {S A B} (m : M S A) (k : A -> M S B) s a s' :
  m s = (inr a, s') -> bind m k s = k a s'.
Proof. intros H. unfold bind. by rewrite H. Qed.

Lemma building_record_change c np h prev item s :
  building c s prev ->
  exists prev' s',
    record_change np h prev item s = (inr prev', s') /\
    building c s' prev' /\
    (prev' = None -> prev = None) /\
    length (flow_log s') =
      (length (flow_log s) + length (filter (fun i => field i = "status") [item]))%nat.
Proof.
  intros Hb. unfold record_change.
  rewrite filter_cons, filter_nil.
  destruct (String.eqb_spec (field item) "status") as [Heq|Hne].
  2:{ exists prev, s. rewrite decide_False by done.
      split; [done|]. split; [done|]. split; [done|]. simpl. lia. }
  rewrite decide_True by done.
  destruct (building_new_dict c s prev (history_created h) (py_str (toString item)) Hb)
    as (Hnew & Hb1 & Hd1).
  erewrite bind_ok by exact Hnew.
  set (n := length (dicts s)) in *.
  set (s1 := {| dicts := dicts s ++ _; flow_log := flow_log s |}) in *.
  assert (Hlen1 : length (dicts s1) = S n).
  { unfold s1. simpl. rewrite length_app. simpl. lia. }
  assert (Hn0 : (0 < n)%nat).
  { destruct Hb as [_ Hr _ _ _ Hin _ _]. rewrite Forall_forall in Hr. by apply (Hr 0%nat). }
  destruct prev as [p|].
  - destruct (building_close c np p (dt_date (history_created h)) s1 Hb1)
      as (s2 & t & Ht & Hclose & Hb2 & Hlen2 & _ & _ & Hlog2).
    assert (Hclose' :
      (s0 <- get ;;
       entered_at <- subscript (dict_at s0 n) "entered_at" ;;
       until <- date_of entered_at ;; close_interval np p until) s1 = (inr tt, s2)).
    { unfold bind at 1, get. unfold bind at 1, subscript. rewrite Hd1.
      rewrite lookup_insert_eq. unfold ret. unfold bind at 1, date_of, ret.
      exact Hclose. }
    erewrite bind_ok by exact Hclose'.
    destruct (building_append c s2 n Hb2) as (s3 & Happ & Hb3 & _ & Hlen3 & _); [lia|].
    erewrite bind_ok by exact Happ.
    exists (Some n), s3. split; [done|]. split; [done|]. split; [done|].
    rewrite Hlen3, Hlog2. simpl. lia.
  - erewrite bind_ok by reflexivity.
    destruct (building_append c s1 n Hb1) as (s3 & Happ & Hb3 & _ & Hlen3 & _); [lia|].
    erewrite bind_ok by exact Happ.
    exists (Some n), s3. split; [done|]. split; [done|]. split; [done|].
    rewrite Hlen3. simpl. lia.
Qed.

Lemma building_items c np h items prev s :
  building c s prev ->
  exists prev' s',
    for_fold items prev (record_change np h) s = (inr prev', s') /\
    building c s' prev' /\
    (prev' = None -> prev = None) /\
    length (flow_log s') =
      (length (flow_log s) + length (filter (fun i => field i = "status") items))%nat.
Proof.
  revert prev s. induction items as [|item items IH]; intros prev s Hb.
  - exists prev, s. simpl. split; [done|]. split; [done|]. split; [done|]. lia.
  - destruct (building_record_change c np h prev item s Hb)
      as (prev1 & s1 & Hrun1 & Hb1 & Hp1 & Hlen1).
    destruct (IH prev1 s1 Hb1) as (prev2 & s2 & Hrun2 & Hb2 & Hp2 & Hlen2).
    exists prev2, s2. cbn [for_fold]. erewrite bind_ok by exact Hrun1.
    split; [done|]. split; [done|]. split; [auto|].
    rewrite Hlen2, Hlen1. change (item :: items) with ([item] ++ items).
    rewrite filter_app, length_app. lia.
Qed.

Lemma building_histories c np histories prev s :
  building c s prev ->
  exists prev' s',
    for_fold histories prev
      (fun prev h => for_fold (history_items h) prev (record_change np h)) s
    = (inr prev', s') /\
    building c s' prev' /\
    (prev' = None -> prev = None) /\
    length (flow_log s') =
      (length (flow_log s) +
       length (concat ((fun h => filter (fun i => field i = "status") (history_items h))
                         <$> histories)))%nat.
Proof.
  revert prev s. induction histories as [|h histories IH]; intros prev s Hb.
  - exists prev, s. simpl. split; [done|]. split; [done|]. split; [done|]. lia.
  - destruct (building_items c np h (history_items h) prev s Hb)
      as (prev1 & s1 & Hrun1 & Hb1 & Hp1 & Hlen1).
    destruct (IH prev1 s1 Hb1) as (prev2 & s2 & Hrun2 & Hb2 & Hp2 & Hlen2).
    exists prev2, s2. cbn [for_fold]. erewrite bind_ok by exact Hrun1.
    split; [done|]. split; [done|]. split; [auto|].
    rewrite Hlen2, Hlen1, fmap_cons. cbn [concat]. rewrite length_app. lia.
Qed.

Lemma seed_appended c :
  let seed : gmap string pyval :=
    {[ "entered_at" := PyDatetime c; "state" := PyStr "Created" ]} in
  let s2 := {| dicts := [<["state" := PyStr "Created"]> seed]; flow_log := [0%nat] |} in
  (seeded <- new_dict seed ;; FlowLog.append (DictAt seeded))
    {| dicts := []; flow_log := [] |} = (inr tt, s2) /\
  building c s2 None.
Proof.
  intros seed s2.
  assert (Hat : seed !! "entered_at" = Some (PyDatetime c)).
  { unfold seed. by rewrite lookup_insert_eq. }
  assert (Hst : seed !! "state" = Some (PyStr "Created")).
  { unfold seed. rewrite lookup_insert_ne by done. by rewrite lookup_singleton_eq. }
  split.
  - erewrite bind_ok by reflexivity.
    rewrite append_dict. cbn [dicts flow_log app length].
    change (dict_at {| dicts := [seed]; flow_log := [] |} 0) with seed.
    rewrite Hat, Hst.
    rewrite sort_by_entered_at_ok.
    + reflexivity.
    + unfold log_ok, appended. cbn [flow_log app].
      constructor; [|constructor].
      change (dict_at _ 0) with (<["state" := PyStr "Created"]> seed).
      unfold entry_instant.
      rewrite lookup_insert_ne by done. rewrite Hat. eauto.
  - assert (Hd : dict_at s2 0 = <["state" := PyStr "Created"]> seed) by done.
    constructor.
    + intros a Ha. cbn [s2 dicts length] in Ha.
      assert (a = 0%nat) as -> by lia.
      unfold passes_validation. rewrite Hd.
      rewrite lookup_insert_ne by done. rewrite Hat.
      by rewrite lookup_insert_eq.
    + repeat constructor.
    + rewrite Hd. by rewrite lookup_insert_eq.
    + rewrite Hd. by rewrite lookup_insert_ne.
    + rewrite Hd. rewrite lookup_insert_ne by done.
      unfold seed. rewrite lookup_insert_ne by done. by rewrite lookup_singleton_ne.
    + cbn [s2 flow_log]. apply list_elem_of_here.
    + done.
    + intros a Ha Ha0 _. cbn [s2 flow_log] in Ha.
      apply list_elem_of_singleton in Ha. done.
Qed.

(** Building the flow log never raises; it ends with one entry for the
    creation and one for every change of status, the seeded entry still
    without a duration, every other entry with one. *)
Lemma build_flow_log_ok np today issue :
  exists s,
    build_flow_log np today issue {| dicts := []; flow_log := [] |} = (inr tt, s) /\
    building (raw_created issue) s None /\
    length (flow_log s) = S (length (status_changes issue)).
Proof.
  destruct (seed_appended (raw_created issue)) as [Hseed Hb].
  unfold build_flow_log.
  set (body := try_except _ _ _).
  assert (Hsplit : forall s0,
    (seed <- new_dict {[ "entered_at" := PyDatetime (raw_created issue);
                         "state" := PyStr "Created" ]} ;;
     FlowLog.append (DictAt seed) ;;; body) s0 =
    ((seed <- new_dict {[ "entered_at" := PyDatetime (raw_created issue);
                          "state" := PyStr "Created" ]} ;;
      FlowLog.append (DictAt seed)) ;;; body) s0).
  { intros s0. unfold bind. by destruct (new_dict _ s0) as [[e|a] s']. }
  rewrite Hsplit. erewrite bind_ok by exact Hseed.
  unfold body, try_except, status_changes.
  destruct (raw_changelog issue) as [histories|].
  2:{ eexists. split; [reflexivity|]. split; [exact Hb|]. reflexivity. }
  erewrite (bind_ok (ret histories)) by reflexivity.
  destruct (building_histories (raw_created issue) np histories None _ Hb)
    as (prev & s3 & Hrun & Hb3 & _ & Hlen).
  erewrite bind_ok by exact Hrun.
  destruct prev as [p|].
  - destruct (building_close (raw_created issue) np p today s3 Hb3)
      as (s4 & t & _ & Hclose & Hb4 & _ & _ & _ & Hlog4).
    rewrite Hclose. exists s4. split; [done|]. split; [done|].
    rewrite Hlog4. exact Hlen.
  - exists s3. split; [done|]. split; [done|]. exact Hlen.
Qed.

(** *** [JiraIssue.__init__] *)

(** The constructor never raises, and the flow log it leaves satisfies what
    held while it was built. *)
Lemma JiraIssue_init_total np today issue :
  exists t,
    JiraIssue_init np today issue = inr t /\
    created t = raw_created issue /\
    resolutiondate t = raw_resolutiondate issue /\
    building (raw_created issue) (_flow_log t) None /\
    length (flow_timeline t) = S (length (status_changes issue)).
Proof.
  destruct (build_flow_log_ok np today issue) as (s & Hrun & Hb & Hlen).
  unfold JiraIssue_init. rewrite Hrun. eexists. split; [reflexivity|].
  split; [done|]. split; [done|]. split; [done|].
  unfold flow_timeline, timeline. cbn [_flow_log]. by rewrite length_fmap.
Qed.

(** Whatever the change history, the flow timeline of a ticket has one
    entry for its creation and one for each change of status; the seeded
    "Created" entry is there without a duration, and every other entry has
    one. *)
Theorem created_entry_never_closed np today issue :
  exists t,
    JiraIssue_init np today issue = inr t /\
    length (flow_timeline t) = S (length (status_changes issue)) /\
    (exists d, d ∈ flow_timeline t /\
               d !! "state" = Some (PyStr "Created") /\
               d !! "entered_at" = Some (PyDatetime (raw_created issue)) /\
               d !! "duration" = None) /\
    Forall (fun d => has_duration d \/ d !! "duration" = None /\
                       d !! "state" = Some (PyStr "Created") /\
                       d !! "entered_at" = Some (PyDatetime (raw_created issue)))
           (flow_timeline t).
Proof.
  destruct (JiraIssue_init_total np today issue) as (t & Hinit & _ & _ & Hb & Hlen).
  exists t. split; [done|]. split; [done|].
  destruct Hb as [_ _ Hst Hat Hop Hin _ Hc].
  unfold flow_timeline, timeline. split.
  - exists (dict_at (_flow_log t) 0). split; [|done].
    apply list_elem_of_fmap. by exists 0%nat.
  - rewrite Forall_fmap, Forall_forall. intros a Ha. simpl.
    destruct (decide (a = 0%nat)) as [->|Hne].
    + by right.
    + left. by apply Hc.
Qed.

(** C1. The ticket [ticket_in_progress] has one status-change event after
    its creation.  Its constructed timeline is the seeded "Created" entry
    followed by the "In Progress" entry: the latter is closed with the five
    business days from 2024-01-03 to today, 2024-01-10, but the "Created"
    entry, which is not the most recent one, has no duration. *)
Theorem created_entry_open_after_status_change :
  exists t,
    JiraIssue_init numpy_sample today_sample ticket_in_progress = inr t /\
    states_and_durations (flow_timeline t) =
      [ (Some (PyStr "Created"), None);
        (Some (PyStr "In Progress"), Some (PyInt 5)) ].
Proof.
  eexists. split.
  - vm_compute. reflexivity.
  - vm_compute. reflexivity.
Qed.

(** *** [cycleTime] *)

(** The creation time is a datetime, which numpy does not take for a day:
    the property raises for every ticket. *)
Lemma cycleTime_raises np t : exists e, cycleTime np t = inl e.
Proof.
  unfold cycleTime, np_busday_count. cbn [as_datetime64].
  destruct (as_datetime64 np _) as [e|[safe_e e]]; eauto.
Qed.

Lemma cycleTime_unresolved np t :
  resolutiondate t = None -> cycleTime np t = inl TypeError.
Proof. intros H. unfold cycleTime. by rewrite H. Qed.

(** C2. The ticket [ticket_in_progress] has no resolution date.  Its
    [cycleTime] is not 0: with any numpy the call raises [TypeError], as
    nothing stands in for the missing date. *)
Theorem cycleTime_without_resolution_date :
  forall np, exists t,
    JiraIssue_init np today_sample ticket_in_progress = inr t /\
    resolutiondate t = None /\
    cycleTime np t = inl TypeError /\
    cycleTime np t <> inr 0.
Proof.
  intros np.
  destruct (JiraIssue_init_total np today_sample ticket_in_progress)
    as (t & Hinit & _ & Hres & _).
  exists t. split; [done|]. split; [done|].
  rewrite (cycleTime_unresolved np t Hres). done.
Qed.

(** *** Rejected entries *)

(** An argument that is no dictionary, or a dictionary whose [entered_at]
    is not a timestamp, is refused with [TypeError], and nothing changes. *)
Lemma append_rejects_non_timestamp s value :
  match value with
  | Scalar _ => True
  | DictAt a => exists v, dict_at s a !! "entered_at" = Some v /\
                          forall t, v <> PyDatetime t
  end ->
  FlowLog.append value s = (inl TypeError, s).
Proof.
  destruct value as [a|v]; [|done].
  intros (v & Hv & Hnt). rewrite append_dict, Hv.
  destruct v; try done. by destruct (Hnt t).
Qed.

(** Whatever does not pass the checks changes nothing. *)
Lemma append_invalid_unchanged s value :
  passes_validation s value = false ->
  exists e, FlowLog.append value s = (inl e, s).
Proof.
  destruct value as [a|v]; [|by eexists].
  unfold passes_validation. rewrite append_dict.
  destruct (dict_at s a !! "entered_at") as [[]|]; try by eexists.
  destruct (dict_at s a !! "state"); [done|by eexists].
Qed.

(** C10. In the store [malformed_entries] the entry at address 2, whose
    [entered_at] is a string, is refused with [TypeError]; but the entry at
    address 0, which has a timestamp and no state, and the entry at address
    1, which has no [entered_at], are refused with [KeyError], the lookup
    failure, not with the error of the flow log.  The log is unchanged in
    all three cases. *)
Theorem append_missing_key_raises_KeyError :
  FlowLog.append (DictAt 2) malformed_entries = (inl TypeError, malformed_entries) /\
  FlowLog.append (DictAt 0) malformed_entries =
    (inl (KeyError "state"), malformed_entries) /\
  FlowLog.append (DictAt 1) malformed_entries =
    (inl (KeyError "entered_at"), malformed_entries).
Proof.
  split; [|split]; rewrite append_dict; reflexivity.
Qed.

(** *** The business-day count on dates *)

Lemma np_busday_count_dates np d1 d2 :
  np_busday_count np (PyDate d1) (PyDate d2) =
  inr (Numpy.busday_count (shift_swapped np) (days_from_civil d1) (days_from_civil d2)).
Proof. reflexivity. Qed.

(** C9, as the code has it.  On dates the count never raises.  It counts
    the weekdays, Monday to Friday, of the days from the start date up to
    but not including the end date, no holiday taken out: 4 from Monday
    2024-01-01 to Friday 2024-01-05, and 0 from Saturday 2024-01-06 to
    Monday 2024-01-08.  When the end date precedes the start date the count
    is the negated count of as many days, hence never positive; it is 0
    from Sunday 2024-01-07 back to Saturday 2024-01-06. *)
Theorem business_days_between_counts_half_open_range :
  forall np,
    np_busday_count np (PyDate (Date 2024 1 1)) (PyDate (Date 2024 1 5)) = inr 4 /\
    np_busday_count np (PyDate (Date 2024 1 6)) (PyDate (Date 2024 1 8)) = inr 0 /\
    np_busday_count np (PyDate (Date 2024 1 7)) (PyDate (Date 2024 1 6)) = inr 0 /\
    Numpy.get_day_of_week (days_from_civil (Date 2024 1 1)) = 0 /\
    (forall d1 d2,
        np_busday_count np (PyDate d1) (PyDate d2) =
        inr (Numpy.busday_count (shift_swapped np)
               (days_from_civil d1) (days_from_civil d2))) /\
    (forall fx start (n : nat),
        Numpy.busday_count fx start (start + Z.of_nat n) = Numpy.weekdays_from start n) /\
    (forall fx start (n : nat),
        Numpy.busday_count fx (start + Z.of_nat n) start =
          - Numpy.weekdays_from (if fx then start + 1 else start) n /\
        Numpy.busday_count fx (start + Z.of_nat n) start <= 0).
Proof.
  intros np. rewrite !np_busday_count_dates.
  split; [by destruct (shift_swapped np)|].
  split; [by destruct (shift_swapped np)|].
  split; [by destruct (shift_swapped np)|].
  split; [reflexivity|]. split; [done|]. split.
  - intros fx start n. rewrite busday_count_forward by lia.
    f_equal. lia.
  - intros fx start n. destruct n as [|n].
    + rewrite Z.add_0_r. rewrite busday_count_forward by lia.
      rewrite Z.sub_diag. simpl. lia.
    + rewrite busday_count_backward by lia.
      replace (Z.to_nat (start + Z.of_nat (S n) - start)) with (S n) by lia.
      split; [done|].
      pose proof (weekdays_from_bounds (if fx then start + 1 else start) (S n)). lia.
Qed.

(** C9, as stated, fails: from Saturday 2024-01-06 to Monday 2024-01-08 the
    count is not 2, and from Sunday 2024-01-07 back to Saturday 2024-01-06,
    an end date that precedes the start date, it is not negative. *)
Lemma business_days_weekend_counterexample :
  np_busday_count numpy_sample (PyDate (Date 2024 1 6)) (PyDate (Date 2024 1 8)) <> inr 2 /\
  days_from_civil (Date 2024 1 6) < days_from_civil (Date 2024 1 7) /\
  ~ (exists n, np_busday_count numpy_sample (PyDate (Date 2024 1 7)) (PyDate (Date 2024 1 6))
               = inr n /\ n < 0).
Proof.
  split; [by vm_compute|]. split; [by vm_compute|].
  intros (n & Hn & Hneg). vm_compute in Hn. injection Hn as <-. lia.
Qed.

(** *** The cache *)

Lemma wrap_and_append np today a found w :
  exists kts,
    wrapped np today found kts /\
    for_each found
      (fun issue => kt <- lift (JiraIssue_init np today issue) ;; list_append a kt) w =
    (inr tt,
     if decide (found = []) then w
     else {| lists := <[a := default [] (lists w !! a) ++ kts]> (lists w);
             _datastore := _datastore w |}).
Proof.
  revert w. induction found as [|issue found IH]; intros w.
  - exists []. split; [constructor|]. reflexivity.
  - destruct (JiraIssue_init_total np today issue) as (kt & Hkt & _).
    set (w1 := {| lists := <[a := default [] (lists w !! a) ++ [kt]]> (lists w);
                  _datastore := _datastore w |}).
    destruct (IH w1) as (kts & Hkts & Hrun).
    exists (kt :: kts). split; [by constructor|].
    assert (Hstep : (kt' <- lift (JiraIssue_init np today issue) ;; list_append a kt') w
                    = (inr tt, w1)).
    { unfold bind, lift. by rewrite Hkt. }
    cbn [for_each]. erewrite bind_ok by exact Hstep. rewrite Hrun.
    rewrite (decide_False (P := issue :: found = [])) by done.
    f_equal. destruct (decide (found = [])) as [->|_].
    + apply Forall2_nil_inv_l in Hkts as ->. reflexivity.
    + unfold w1. cbn [lists _datastore]. f_equal.
      destruct (decide (a < length (lists w))%nat) as [Hlt|Hge].
      * rewrite list_lookup_insert_eq by done. cbn [default from_option id].
        rewrite list_insert_insert_eq. by rewrite <- app_assoc.
      * rewrite !list_insert_ge by (rewrite ?length_insert; lia). done.
Qed.

Lemma wrapped_length np today found kts :
  wrapped np today found kts -> length kts = length found.
Proof. intros H. symmetry. by eapply Forall2_length. Qed.

(** One round of the loop over the project ids, when the shared default
    list exists: the tickets found are appended to that list, and the
    project is kept when the list is not empty afterwards. *)
Lemma fetch_project_run np today client acc pid w l0 :
  lists w !! default_issues = Some l0 ->
  exists kts,
    wrapped np today (search_issues client (project_query pid) (Some 10%nat)) kts /\
    fetch_project np today client acc pid w =
    (inr (if (0 <? length (l0 ++ kts))%nat
          then <[pid := JiraProject_init (project client pid) (project_query pid)]> acc
          else acc),
     {| lists := <[default_issues := l0 ++ kts]> (lists w);
        _datastore := _datastore w |}).
Proof.
  intros Hl0. unfold fetch_project.
  destruct (wrap_and_append np today default_issues
              (search_issues client (project_query pid) (Some 10%nat)) w)
    as (kts & Hkts & Hrun).
  exists kts. split; [done|].
  cbn [JiraProject_init JQLResult_init as_JQLResult _issues default].
  erewrite bind_ok by exact Hrun.
  assert (Hlt : (default_issues < length (lists w))%nat).
  { by eapply lookup_lt_Some. }
  assert (Hw : (if decide (search_issues client (project_query pid) (Some 10%nat) = [])
                then w
                else {| lists := <[default_issues := default [] (lists w !! default_issues) ++ kts]>
                                   (lists w);
                        _datastore := _datastore w |}) =
               {| lists := <[default_issues := l0 ++ kts]> (lists w);
                  _datastore := _datastore w |}).
  { rewrite Hl0. cbn [default]. destruct (decide _) as [Hnil|]; [|done].
    rewrite Hnil in Hkts. apply Forall2_nil_inv_l in Hkts as ->.
    rewrite app_nil_r, list_insert_id by done. by destruct w. }
  rewrite Hw. unfold bind, get, issues.
  cbn [lists _issues as_JQLResult].
  rewrite list_lookup_insert_eq by done. cbn [default from_option id].
  by destruct (0 <? length (l0 ++ kts))%nat.
Qed.

(** [populate_projects] once the projects are fetched: the merge into the
    cache, where a fetched project replaces a cached one of the same id and
    every other cached project stays. *)
Lemma populate_projects_merge np today client ids w fetched w1 old :
  _getJiraIssuesForProjects np today client ids w = (inr fetched, w1) ->
  _datastore w1 !! "projects" = Some (StoredDict old) ->
  populate_projects np today client ids w =
  (inr fetched,
   {| lists := lists w1;
      _datastore := <["projects" := StoredDict (fetched ∪ old)]> (_datastore w1) |}).
Proof.
  intros Hfetch Hold. unfold populate_projects.
  erewrite bind_ok by exact Hfetch.
  unfold datastore_get, bind, get, as_mapping, set_datastore, modify, ret.
  by rewrite Hold.
Qed.

Lemma merged_lookup (fetched old : gmap string JiraProject) pid :
  (fetched ∪ old) !! pid =
  match fetched !! pid with Some p => Some p | None => old !! pid end.
Proof.
  destruct (fetched !! pid) as [p|] eqn:Hf.
  - by apply lookup_union_Some_l.
  - by rewrite lookup_union_r.
Qed.

(** C4. The list of a project result set is the list bound to the default
    of [issues]: any two project result sets hold the same list, and a
    ticket appended through one is read through every other.  So when
    [populate_projects([p1, p2])] finds some tickets for [p1] and none for
    [p2], the result set of [p2] is returned and cached all the same, and
    its records are what the shared list held before the call followed by
    the tickets of [p1]: as many records as [p1] has tickets when the
    shared list was empty before. *)
Theorem default_issues_list_is_shared :
  forall np today client,
    (forall pd1 q1 pd2 q2,
        _issues (JiraProject_init pd1 q1) = _issues (JiraProject_init pd2 q2)) /\
    (forall w pd1 q1 pd2 q2 kt l0,
        lists w !! default_issues = Some l0 ->
        issues (list_append (_issues (JiraProject_init pd1 q1)) kt w).2
               (JiraProject_init pd2 q2) = l0 ++ [kt]) /\
    (forall p1 p2 w old l0,
        lists w !! default_issues = Some l0 ->
        _datastore w !! "projects" = Some (StoredDict old) ->
        search_issues client (project_query p1) (Some 10%nat) <> [] ->
        search_issues client (project_query p2) (Some 10%nat) = [] ->
        exists kts fetched w' (proj2 : JiraProject) cache,
          wrapped np today (search_issues client (project_query p1) (Some 10%nat)) kts /\
          populate_projects np today client [p1; p2] w = (inr fetched, w') /\
          fetched !! p2 = Some proj2 /\
          _datastore w' !! "projects" = Some (StoredDict cache) /\
          cache !! p2 = Some proj2 /\
          issues w' proj2 = l0 ++ kts /\
          (l0 = [] ->
           length (issues w' proj2) =
           length (search_issues client (project_query p1) (Some 10%nat)))).
Proof.
  intros np today client. split; [done|]. split.
  - intros w pd1 q1 pd2 q2 kt l0 Hl0.
    unfold issues, list_append, modify.
    cbn [snd lists JiraProject_init JQLResult_init as_JQLResult _issues default
         from_option id].
    rewrite Hl0. cbn [default from_option id].
    rewrite list_lookup_insert_eq by (by eapply lookup_lt_Some). done.
  - intros p1 p2 w old l0 Hl0 Hold Hfound1 Hfound2.
    assert (Hlt : (default_issues < length (lists w))%nat) by (by eapply lookup_lt_Some).
    destruct (fetch_project_run np today client ∅ p1 w l0 Hl0) as (kts & Hkts & Hrun1).
    set (w1 := {| lists := <[default_issues := l0 ++ kts]> (lists w);
                  _datastore := _datastore w |}) in *.
    assert (Hl1 : lists w1 !! default_issues = Some (l0 ++ kts)).
    { unfold w1. cbn [lists]. by rewrite list_lookup_insert_eq. }
    destruct (fetch_project_run np today client
                (if (0 <? length (l0 ++ kts))%nat
                 then <[p1 := JiraProject_init (project client p1) (project_query p1)]> ∅
                 else ∅) p2 w1 (l0 ++ kts) Hl1) as (kts2 & Hkts2 & Hrun2).
    rewrite Hfound2 in Hkts2. apply Forall2_nil_inv_l in Hkts2 as ->.
    rewrite app_nil_r in Hrun2.
    assert (Hpos : (0 <? length (l0 ++ kts))%nat = true).
    { apply Nat.ltb_lt. rewrite length_app, (wrapped_length _ _ _ _ Hkts).
      destruct (search_issues client (project_query p1) (Some 10%nat)); [done|simpl; lia]. }
    rewrite Hpos in Hrun1, Hrun2.
    set (proj2 := JiraProject_init (project client p2) (project_query p2)) in *.
    set (w2 := {| lists := <[default_issues := l0 ++ kts]> (lists w1);
                  _datastore := _datastore w1 |}) in *.
    assert (Hfetch : _getJiraIssuesForProjects np today client [p1; p2] w =
                     (inr (<[p2 := proj2]>
                             (<[p1 := JiraProject_init (project client p1) (project_query p1)]> ∅)),
                      w2)).
    { unfold _getJiraIssuesForProjects. cbn [for_fold].
      erewrite bind_ok by exact Hrun1. erewrite bind_ok by exact Hrun2. done. }
    eexists kts, _, _, proj2, _. split; [done|].
    split; [by apply (populate_projects_merge _ _ _ _ _ _ _ old Hfetch)|].
    split; [by rewrite lookup_insert_eq|].
    cbn [_datastore]. split; [by rewrite lookup_insert_eq|].
    split; [by rewrite merged_lookup, lookup_insert_eq|].
    assert (Hiss : issues {| lists := lists w2;
                             _datastore := <["projects" := StoredDict
                               (<[p2 := proj2]>
                                  (<[p1 := JiraProject_init (project client p1)
                                             (project_query p1)]> ∅) ∪ old)]>
                               (_datastore w2) |} proj2 = l0 ++ kts).
    { unfold issues, w2, w1. cbn [lists proj2 JiraProject_init JQLResult_init
        as_JQLResult _issues default from_option id].
      rewrite list_lookup_insert_eq by (by rewrite length_insert). done. }
    split; [exact Hiss|].
    intros ->. rewrite Hiss. simpl. by apply wrapped_length in Hkts.
Qed.

Lemma wrap_all np today found acc (w : world) :
  exists kts,
    wrapped np today found kts /\
    for_fold found acc
      (fun acc i => kt <- lift (JiraIssue_init np today i) ;; ret (acc ++ [kt])) w =
    (inr (acc ++ kts), w).
Proof.
  revert acc. induction found as [|issue found IH]; intros acc.
  - exists []. split; [constructor|]. cbn [for_fold]. by rewrite app_nil_r.
  - destruct (JiraIssue_init_total np today issue) as (kt & Hkt & _).
    destruct (IH (acc ++ [kt])) as (kts & Hkts & Hrun).
    exists (kt :: kts). split; [by constructor|].
    assert (Hstep : (kt' <- lift (JiraIssue_init np today issue) ;; ret (acc ++ [kt'])) w
                    = (inr (acc ++ [kt]), w)).
    { unfold bind, lift. by rewrite Hkt. }
    cbn [for_fold]. erewrite bind_ok by exact Hstep. rewrite Hrun.
    by rewrite <- app_assoc.
Qed.

(** With a query text, [populate_from_jql] never raises: it wraps what the
    search returns, puts it in a new list and binds the label to the
    result, in the dictionary that also holds the project cache. *)
Lemma populate_from_jql_run np today client query label w :
  exists kts,
    wrapped np today (search_issues client query None) kts /\
    populate_from_jql np today client (Some query) label w =
    (inr (JQLResult_init query label (Some (length (lists w)))),
     {| lists := lists w ++ [kts];
        _datastore := <[label := StoredResult
                                   (JQLResult_init query label (Some (length (lists w))))]>
                        (_datastore w) |}).
Proof.
  destruct (wrap_all np today (search_issues client query None) [] w)
    as (kts & Hkts & Hrun).
  exists kts. split; [done|].
  unfold populate_from_jql. erewrite bind_ok by exact Hrun.
  reflexivity.
Qed.

(** The frame of [populate_from_jql] for a label other than "projects":
    the result is bound to the label, and the project cache is as before. *)
Lemma populate_from_jql_frame np today client query label w :
  label <> "projects" ->
  exists r w',
    populate_from_jql np today client (Some query) label w = (inr r, w') /\
    _datastore w' !! label = Some (StoredResult r) /\
    _datastore w' !! "projects" = _datastore w !! "projects" /\
    (forall k, k <> label -> _datastore w' !! k = _datastore w !! k).
Proof.
  intros Hne.
  destruct (populate_from_jql_run np today client query label w) as (kts & _ & Hrun).
  eexists _, _. split; [exact Hrun|]. cbn [_datastore].
  split; [by rewrite lookup_insert_eq|].
  split; [by rewrite lookup_insert_ne|].
  intros k Hk. by rewrite lookup_insert_ne.
Qed.

(** C5. The sample client has one ticket for P1 and none for P2.  After
    [populate_projects(["P1", "P2"])] on a new [Jira], the fetch of P2 has
    yielded no ticket, and yet P2 is in the returned mapping and in the
    cache: [get_project("P2")] returns its result set, which shows the
    ticket of P1. *)
Theorem empty_project_is_stored_after_nonempty_one :
  search_issues client_sample (project_query "P2") (Some 10%nat) = [] /\
  exists fetched w' (p2 : JiraProject),
    populate_projects numpy_sample today_sample client_sample ["P1"; "P2"] jira_sample
      = (inr fetched, w') /\
    fetched !! "P2" = Some p2 /\
    get_project "P2" w' = (inr (ReturnedProject p2), w') /\
    key_ <$> issues w' p2 = ["P1-1"].
Proof.
  split; [reflexivity|].
  eexists _, _, _. split; [vm_compute; reflexivity|].
  split; [vm_compute; reflexivity|].
  split; [vm_compute; reflexivity|].
  vm_compute. reflexivity.
Qed.

(** C6. On a new [Jira], once [populate_projects(["P1"])] has cached P1,
    the call [populate_from_jql("project = P1", "projects")] binds the key
    of the project cache to the query result: the mapping from project id
    to result set is gone, and [get_project("P1")], which found P1 before,
    now raises [TypeError]. *)
Theorem label_projects_replaces_project_cache :
  exists fetched w1 (p1 : JiraProject) r w2,
    populate_projects numpy_sample today_sample client_sample ["P1"] jira_sample
      = (inr fetched, w1) /\
    get_project "P1" w1 = (inr (ReturnedProject p1), w1) /\
    populate_from_jql numpy_sample today_sample client_sample
      (Some "project = P1") "projects" w1 = (inr r, w2) /\
    _datastore w2 !! "projects" = Some (StoredResult r) /\
    get_project "P1" w2 = (inl TypeError, w2).
Proof.
  eexists _, _, _, _, _. split; [vm_compute; reflexivity|].
  split; [vm_compute; reflexivity|].
  split; [vm_compute; reflexivity|].
  split; [vm_compute; reflexivity|].
  vm_compute. reflexivity.
Qed.



(** The two lookups at a key that is not cached. *)
Lemma get_query_result_absent label w :
  _datastore w !! label = None ->
  get_query_result label w = (inl (KeyError label), w).
Proof.
  intros H. unfold get_query_result, datastore_get, bind, get. by rewrite H.
Qed.

Lemma get_project_absent pid w m :
  _datastore w !! "projects" = Some (StoredDict m) -> m !! pid = None ->
  get_project pid w =
  (inr (ReturnedException (KeyError (not_cached_message pid))), w).
Proof.
  intros Hm Hpid. unfold get_project, try_except, datastore_get, bind, get.
  rewrite Hm. cbn. by rewrite Hpid.
Qed.

(** C8. On a new [Jira], where nothing is cached, [get_query_result("A")]
    lets the [KeyError] of the failed subscript through, and
    [get_project("P1")] does not raise at all: it returns, as its value,
    a [KeyError] object whose message names the id. *)
Theorem lookups_of_absent_keys :
  get_query_result "A" jira_sample = (inl (KeyError "A"), jira_sample) /\
  get_project "P1" jira_sample =
    (inr (ReturnedException (KeyError (not_cached_message "P1"))), jira_sample).
Proof.
  split.
  - by apply get_query_result_absent.
  - by apply (get_project_absent "P1" jira_sample ∅).
Qed.

(** *** Instances *)

(** The three entries of [three_entries], appended in the order of their
    addresses: the second is the earliest, the first and the third tie. *)
Lemma flow_log_sorted_after_every_append_witness :
  log_ok three_entries /\
  Forall (fun v => passes_validation three_entries v = true)
         [DictAt 0; DictAt 1; DictAt 2] /\
  exists s,
    append_all (take 3 [DictAt 0; DictAt 1; DictAt 2]) three_entries = (inr tt, s) /\
    ascending (timeline s) /\
    length (flow_log s) = (length (flow_log three_entries) + 3)%nat.
Proof.
  assert (H1 : log_ok three_entries) by constructor.
  assert (H2 : Forall (fun v => passes_validation three_entries v = true)
                      [DictAt 0; DictAt 1; DictAt 2]).
  { repeat constructor. }
  split; [exact H1|]. split; [exact H2|].
  apply (flow_log_sorted_after_every_append three_entries _ H1 H2 3).
  simpl. lia.
Defined.

(** The same run, computed: the earliest entry comes first, the two that
    tie keep the order in which they were appended, and the state that was
    the number 7 is now the string "7". *)
Example three_entries_appended :
  exists s,
    append_all [DictAt 0; DictAt 1; DictAt 2] three_entries = (inr tt, s) /\
    flow_log s = [1; 0; 2]%nat /\
    (fun d => d !! "state") <$> timeline s =
      [Some (PyStr "A"); Some (PyStr "B"); Some (PyStr "7")].
Proof.
  eexists. split; [vm_compute; reflexivity|].
  split; vm_compute; reflexivity.
Qed.

(** [populate_projects(["P1", "P2"])] on a new [Jira] with the sample
    client, which has one ticket for P1 and none for P2. *)
Lemma default_issues_list_is_shared_witness :
  lists jira_sample !! default_issues = Some [] /\
  _datastore jira_sample !! "projects" = Some (StoredDict ∅) /\
  search_issues client_sample (project_query "P1") (Some 10%nat) <> [] /\
  search_issues client_sample (project_query "P2") (Some 10%nat) = [] /\
  exists kts fetched w' (proj2 : JiraProject) cache,
    wrapped numpy_sample today_sample
      (search_issues client_sample (project_query "P1") (Some 10%nat)) kts /\
    populate_projects numpy_sample today_sample client_sample ["P1"; "P2"] jira_sample
      = (inr fetched, w') /\
    fetched !! "P2" = Some proj2 /\
    _datastore w' !! "projects" = Some (StoredDict cache) /\
    cache !! "P2" = Some proj2 /\
    issues w' proj2 = [] ++ kts /\
    (@nil JiraIssue = [] ->
     length (issues w' proj2) =
     length (search_issues client_sample (project_query "P1") (Some 10%nat))).
Proof.
  assert (H1 : lists jira_sample !! default_issues = Some []) by reflexivity.
  assert (H2 : _datastore jira_sample !! "projects" = Some (StoredDict ∅))
    by (vm_compute; reflexivity).
  assert (H3 : search_issues client_sample (project_query "P1") (Some 10%nat) <> [])
    by (vm_compute; discriminate).
  assert (H4 : search_issues client_sample (project_query "P2") (Some 10%nat) = [])
    by reflexivity.
  split; [exact H1|]. split; [exact H2|]. split; [exact H3|]. split; [exact H4|].
  destruct (default_issues_list_is_shared numpy_sample today_sample client_sample)
    as (_ & _ & Hscenario).
  exact (Hscenario "P1" "P2" jira_sample ∅ [] H1 H2 H3 H4).
Defined.

(** ** Further properties *)

(** *** More on the stable sort *)

Lemma sort_by_snoc {A} (key : A -> Z) l a :
  sort_by key (l ++ [a]) = foldr (insert_by key) [a] l.
Proof. unfold sort_by. by rewrite foldr_app. Qed.


(** Two elements with different keys are inserted in either order to the
    same effect. *)
Lemma insert_by_comm {A} (key : A -> Z) x y l :
  key y < key x ->
  insert_by key x (insert_by key y l) = insert_by key y (insert_by key x l).
Proof.
  intros Hlt. induction l as [|z l IH]; simpl.
  - destruct (Z.leb_spec (key x) (key y)); [lia|].
    by destruct (Z.leb_spec (key y) (key x)); [|lia].
  - destruct (Z.leb_spec (key y) (key z)) as [Hyz|Hyz];
      destruct (Z.leb_spec (key x) (key z)) as [Hxz|Hxz]; simpl.
    + destruct (Z.leb_spec (key x) (key y)); [lia|].
      destruct (Z.leb_spec (key y) (key x)); [|lia].
      by destruct (Z.leb_spec (key x) (key z)); [|lia].
    + destruct (Z.leb_spec (key x) (key y)); [lia|].
      destruct (Z.leb_spec (key y) (key z)); [|lia].
      by destruct (Z.leb_spec (key x) (key z)); [lia|].
    + lia.
    + destruct (Z.leb_spec (key x) (key z)); [lia|].
      destruct (Z.leb_spec (key y) (key z)); [lia|].
      by rewrite IH.
Qed.

Lemma insert_by_foldr {A} (key : A -> Z) a x l :
  foldr (insert_by key) [a] (insert_by key x l) =
  insert_by key x (foldr (insert_by key) [a] l).
Proof.
  induction l as [|y l IH]; [done|]. simpl.
  destruct (Z.leb_spec (key x) (key y)) as [Hle|Hgt]; [done|].
  simpl. rewrite IH. symmetry. by apply insert_by_comm.
Qed.

(** Sorting, appending and sorting again is appending and sorting once. *)
Lemma sort_by_sort_by_snoc {A} (key : A -> Z) l a :
  sort_by key (sort_by key l ++ [a]) = sort_by key (l ++ [a]).
Proof.
  rewrite !sort_by_snoc. induction l as [|x l IH]; [done|].
  rewrite sort_by_cons. simpl. by rewrite insert_by_foldr, IH.
Qed.


Lemma insert_by_ext_in {A} (f g : A -> Z) x l :
  f x = g x -> (forall y, y ∈ l -> f y = g y) -> insert_by f x l = insert_by g x l.
Proof.
  intros Hx. induction l as [|y l IH]; intros Hfg; simpl; [done|].
  rewrite Hx, (Hfg y) by left. rewrite IH; [done|].
  intros z Hz. apply Hfg. by right.
Qed.

Lemma sort_by_ext_in {A} (f g : A -> Z) l :
  (forall y, y ∈ l -> f y = g y) -> sort_by f l = sort_by g l.
Proof.
  induction l as [|x l IH]; intros Hfg; [done|].
  rewrite !sort_by_cons, IH by (intros y Hy; apply Hfg; by right).
  apply insert_by_ext_in; [apply Hfg; by left|].
  intros y Hy. apply Hfg. right. by rewrite <- (sort_by_Permutation g l).
Qed.

Lemma insert_by_fmap {A B} (key : B -> Z) (f : A -> B) x l :
  f <$> insert_by (fun a => key (f a)) x l = insert_by key (f x) (f <$> l).
Proof.
  induction l as [|y l IH]; [done|]. rewrite fmap_cons. simpl.
  destruct (key (f x) <=? key (f y)); [done|]. by rewrite fmap_cons, IH.
Qed.

(** Sorting addresses by the key of what they name, then reading them, is
    sorting what they name. *)
Lemma sort_by_fmap {A B} (key : B -> Z) (f : A -> B) l :
  f <$> sort_by (fun a => key (f a)) l = sort_by key (f <$> l).
Proof.
  induction l as [|x l IH]; [done|].
  by rewrite fmap_cons, !sort_by_cons, insert_by_fmap, IH.
Qed.

(** *** More on [FlowLog.append] *)

(** X1. A value that does not pass the checks of [append] is refused with
    [TypeError] or with the [KeyError] of the missing key, and the store,
    dictionaries and log, is exactly what it was: nothing is appended,
    nothing is coerced. *)
Theorem append_rejected_changes_nothing :
  forall s value,
    passes_validation s value = false ->
    exists e,
      FlowLog.append value s = (inl e, s) /\
      (e = TypeError \/ e = KeyError "entered_at" \/ e = KeyError "state").
Proof.
  intros s [a|v] Hv; [|exists TypeError; split; [done|by left]].
  unfold passes_validation in Hv. rewrite append_dict.
  destruct (dict_at s a !! "entered_at") as [[]|]; try (eexists; split; [done|]; auto).
  destruct (dict_at s a !! "state"); [done|]. eexists; split; [done|]; auto.
Qed.

Lemma append_rejected_changes_nothing_witness :
  passes_validation malformed_entries (DictAt 0) = false /\
  exists e,
    FlowLog.append (DictAt 0) malformed_entries = (inl e, malformed_entries) /\
    (e = TypeError \/ e = KeyError "entered_at" \/ e = KeyError "state").
Proof.
  assert (H : passes_validation malformed_entries (DictAt 0) = false) by reflexivity.
  split; [exact H|].
  exact (append_rejected_changes_nothing malformed_entries (DictAt 0) H).
Defined.

(** X2. A successful [append] loses and invents nothing: the log is the old
    log and the new address, rearranged; the appended dictionary differs
    from what it was only in its state, now the string [str] gives for the
    old state; every other dictionary is as it was. *)
Theorem append_keeps_entries :
  forall s a,
    log_ok s ->
    passes_validation s (DictAt a) = true ->
    exists s' state,
      FlowLog.append (DictAt a) s = (inr tt, s') /\
      dict_at s a !! "state" = Some state /\
      flow_log s' ≡ₚ flow_log s ++ [a] /\
      dict_at s' a = <["state" := PyStr (py_str state)]> (dict_at s a) /\
      (forall b, b <> a -> dict_at s' b = dict_at s b).
Proof.
  intros s a Hok Hv.
  destruct (append_valid s (DictAt a) Hok Hv) as (a' & state & [= <-] & Hst & Happ).
  eexists _, state. split; [exact Happ|]. split; [done|].
  split; [apply sort_by_Permutation|].
  assert (Hlt : (a < length (dicts s))%nat).
  { destruct (decide (a < length (dicts s))%nat) as [|Hge]; [done|].
    unfold dict_at in Hst. rewrite (lookup_ge_None_2 (dicts s) a) in Hst by lia. done. }
  split.
  - change (dict_at (appended s a state) a = <["state" := PyStr (py_str state)]> (dict_at s a)).
    rewrite dict_at_appended. by rewrite !decide_True.
  - intros b Hb.
    change (dict_at (appended s a state) b = dict_at s b).
    rewrite dict_at_appended. by rewrite decide_False.
Qed.

Lemma append_keeps_entries_witness :
  log_ok three_entries /\
  passes_validation three_entries (DictAt 2) = true /\
  exists s' state,
    FlowLog.append (DictAt 2) three_entries = (inr tt, s') /\
    dict_at three_entries 2 !! "state" = Some state /\
    flow_log s' ≡ₚ flow_log three_entries ++ [2%nat] /\
    dict_at s' 2 = <["state" := PyStr (py_str state)]> (dict_at three_entries 2) /\
    (forall b, b <> 2%nat -> dict_at s' b = dict_at three_entries b).
Proof.
  assert (H1 : log_ok three_entries) by constructor.
  assert (H2 : passes_validation three_entries (DictAt 2) = true) by reflexivity.
  split; [exact H1|]. split; [exact H2|].
  exact (append_keeps_entries three_entries 2 H1 H2).
Defined.


(** *** The flow log of a ticket, entry by entry *)

Lemma open_entry_at t state : open_entry t state !! "entered_at" = Some (PyDatetime t).
Proof. unfold open_entry. by rewrite lookup_insert_eq. Qed.

Lemma open_entry_state t state : open_entry t state !! "state" = Some (PyStr state).
Proof.
  unfold open_entry. rewrite lookup_insert_ne by done. by rewrite lookup_singleton_eq.
Qed.

Lemma open_entry_duration t state : open_entry t state !! "duration" = None.
Proof.
  unfold open_entry. rewrite lookup_insert_ne by done. by rewrite lookup_singleton_ne.
Qed.

Lemma open_entry_coerced t state :
  <["state" := PyStr (py_str (PyStr state))]> (open_entry t state) = open_entry t state.
Proof. apply insert_id, open_entry_state. Qed.

Lemma closed_entry_at np t state u :
  closed_entry np t state u !! "entered_at" = Some (PyDatetime t).
Proof. unfold closed_entry. rewrite lookup_insert_ne by done. apply open_entry_at. Qed.

Lemma event_entries_length np events final :
  length (event_entries np events final) = length events.
Proof.
  induction events as [|[t st] events IH]; [done|]. simpl. by rewrite IH.
Qed.

Lemma event_entries_snoc np events t state final :
  event_entries np (events ++ [(t, state)]) final =
  event_entries np events (Some (dt_date t)) ++
  [match final with
   | Some until => closed_entry np t state until
   | None => open_entry t state
   end].
Proof.
  induction events as [|[t0 s0] events IH]; [done|].
  cbn [app event_entries]. rewrite IH. by destruct events as [|[t1 s1] events].
Qed.

(** Every entry keeps the time of its change. *)
Lemma event_entries_instant np events final :
  entry_instant <$> event_entries np events final = (fun e => Some (instant e.1)) <$> events.
Proof.
  induction events as [|[t st] events IH]; [done|].
  cbn [event_entries]. rewrite !fmap_cons, IH. f_equal.
  unfold entry_instant.
  destruct events as [|[t1 s1] events]; [destruct final|];
    by rewrite ?closed_entry_at, ?open_entry_at.
Qed.

Lemma entry_instant_recorded np created events final extra s a :
  dicts s = open_entry created "Created" :: event_entries np events final ++ extra ->
  (a <= length events)%nat ->
  entry_instant (dict_at s a) = instant <$> (created :: events.*1) !! a.
Proof.
  intros Hd Ha. unfold dict_at. rewrite Hd.
  destruct a as [|a]; simpl.
  - unfold entry_instant. by rewrite open_entry_at.
  - rewrite lookup_app_l by (rewrite event_entries_length; lia).
    assert (Hi : (entry_instant <$> event_entries np events final) !! a =
                 ((fun e => Some (instant e.1)) <$> events) !! a)
      by (by rewrite event_entries_instant).
    rewrite !list_lookup_fmap in Hi. rewrite list_lookup_fmap.
    destruct (lookup_lt_is_Some_2 events a ltac:(lia)) as [[t st] Hea].
    destruct (lookup_lt_is_Some_2 (event_entries np events final) a
                ltac:(rewrite event_entries_length; lia)) as [d Hda].
    rewrite Hea, Hda in Hi |- *. simpl in *. by injection Hi as ->.
Qed.

Lemma key_of_recorded np created events final extra s a :
  dicts s = open_entry created "Created" :: event_entries np events final ++ extra ->
  (a <= length events)%nat ->
  key_of s a = event_key created events a.
Proof.
  intros Hd Ha. unfold key_of, event_key.
  by erewrite (entry_instant_recorded np created events final extra s a).
Qed.

Lemma is_Some_instant_recorded np created events final extra s a :
  dicts s = open_entry created "Created" :: event_entries np events final ++ extra ->
  (a <= length events)%nat ->
  is_Some (entry_instant (dict_at s a)).
Proof.
  intros Hd Ha.
  erewrite (entry_instant_recorded np created events final extra s a) by done.
  destruct (lookup_lt_is_Some_2 (created :: events.*1) a) as [t Ht].
  { simpl. rewrite length_fmap. lia. }
  rewrite Ht. by eexists.
Qed.

Lemma event_key_app created events more a :
  (a <= length events)%nat ->
  event_key created (events ++ more) a = event_key created events a.
Proof.
  intros Ha. unfold event_key. destruct a as [|a]; [done|]. simpl.
  rewrite fmap_app, lookup_app_l by (rewrite length_fmap; lia). done.
Qed.

Lemma elem_of_sorted_seq (key : nat -> Z) n a :
  a ∈ sort_by key (seq 0 n) -> (a < n)%nat.
Proof.
  rewrite sort_by_Permutation. intros Ha. apply elem_of_seq in Ha. lia.
Qed.

(** The store after the new entry is appended: the log is the stable sort
    of all the addresses again. *)
Lemma recorded_append np created events t state s :
  dicts s = open_entry created "Created"
              :: event_entries np (events ++ [(t, state)]) None ->
  flow_log s = sort_by (event_key created events) (seq 0 (S (length events))) ->
  exists s',
    FlowLog.append (DictAt (S (length events))) s = (inr tt, s') /\
    recorded np created (events ++ [(t, state)]) s' (Some (S (length events))).
Proof.
  intros Hd Hl.
  set (n := S (length events)).
  set (evs' := events ++ [(t, state)]) in *.
  assert (Hlen' : length evs' = n) by (unfold evs'; rewrite length_app; simpl; lia).
  assert (Hdn : dict_at s n = open_entry t state).
  { unfold dict_at. rewrite Hd. unfold evs'. rewrite event_entries_snoc. simpl.
    rewrite lookup_app_r by (rewrite event_entries_length; lia).
    by rewrite event_entries_length, Nat.sub_diag. }
  assert (Happd : appended s n (PyStr state) =
                  {| dicts := dicts s; flow_log := flow_log s ++ [n] |}).
  { unfold appended. f_equal. rewrite Hdn, open_entry_coerced.
    apply list_insert_id. unfold dict_at in Hdn.
    destruct (dicts s !! n) as [d|] eqn:Hdd; [by simpl in Hdn; subst|].
    simpl in Hdn. pose proof (open_entry_at t state) as Hat.
    rewrite <- Hdn in Hat. done. }
  assert (Hd0 : dicts s = open_entry created "Created" :: event_entries np evs' None ++ [])
    by (by rewrite app_nil_r).
  assert (Hok : log_ok {| dicts := dicts s; flow_log := flow_log s ++ [n] |}).
  { unfold log_ok. cbn [flow_log]. apply Forall_forall. intros a Ha.
    change (dict_at {| dicts := dicts s; flow_log := flow_log s ++ [n] |} a)
      with (dict_at s a).
    apply (is_Some_instant_recorded np created evs' None [] s a Hd0).
    apply elem_of_app in Ha as [Ha|Ha].
    - rewrite Hl in Ha. apply elem_of_sorted_seq in Ha. lia.
    - apply list_elem_of_singleton in Ha. lia. }
  eexists. split.
  { rewrite append_dict, Hdn, open_entry_at, open_entry_state, Happd.
    by apply sort_by_entered_at_ok. }
  split; [done|]. split.
  - cbn [flow_log dicts]. rewrite Hl, Hlen'.
    rewrite (sort_by_ext_in (event_key created events) (event_key created evs')).
    2:{ intros a Ha. apply elem_of_seq in Ha.
        unfold evs'. rewrite event_key_app by lia. done. }
    rewrite (sort_by_ext_in _ (event_key created evs')).
    2:{ intros a Ha.
        change (key_of {| dicts := dicts s; flow_log := ?l |} a) with (key_of s a).
        apply (key_of_recorded np created evs' None [] s a Hd0).
        apply elem_of_app in Ha as [Ha|Ha].
        - apply elem_of_sorted_seq in Ha. lia.
        - apply list_elem_of_singleton in Ha. lia. }
    rewrite sort_by_sort_by_snoc. by rewrite <- seq_S.
  - rewrite <- Hlen'. unfold evs'. by destruct events.
Qed.

(** One change of status goes through the body of the loops. *)
Lemma recorded_status np created h item events s prev :
  recorded np created events s prev ->
  field item = "status" ->
  exists s',
    record_change np h prev item s = (inr (Some (S (length events))), s') /\
    recorded np created (events ++ [(history_created h, py_str (toString item))]) s'
             (Some (S (length events))).
Proof.
  intros (Hd & Hl & Hp) Hf.
  set (t' := history_created h). set (st' := py_str (toString item)).
  assert (Hlen : length (dicts s) = S (length events)).
  { rewrite Hd. simpl. by rewrite event_entries_length. }
  set (s2 := {| dicts := open_entry created "Created"
                           :: event_entries np (events ++ [(t', st')]) None;
                flow_log := flow_log s |}).
  assert (Hmid :
    (new_log_item <- new_dict {[ "entered_at" := PyDatetime t'; "state" := PyStr st' ]} ;;
     match prev with
     | Some p =>
         s0 <- get ;;
         entered_at <- subscript (dict_at s0 new_log_item) "entered_at" ;;
         until <- date_of entered_at ;;
         close_interval np p until
     | None => ret tt
     end ;;;
     ret new_log_item) s = (inr (S (length events)), s2)).
  { erewrite bind_ok by reflexivity. rewrite Hlen. subst prev.
    destruct (decide (events = [])) as [->|Hne].
    - cbn [bind ret]. unfold bind, ret. unfold s2. rewrite Hd. reflexivity.
    - destruct (exists_last Hne) as (evs0 & [tl sl] & ->).
      assert (Hp : match evs0 ++ [(tl, sl)] with
                   | [] => None
                   | _ :: _ => Some (length (evs0 ++ [(tl, sl)]))
                   end = Some (S (length evs0))).
      { rewrite length_app. simpl. rewrite Nat.add_1_r. by destruct evs0. }
      rewrite Hp.
      set (s1 := {| dicts := dicts s ++ [{[ "entered_at" := PyDatetime t';
                                            "state" := PyStr st' ]}];
                    flow_log := flow_log s |}).
      assert (Hd1 : dicts s1 = open_entry created "Created"
                      :: (event_entries np evs0 (Some (dt_date tl)) ++ [open_entry tl sl])
                      ++ [open_entry t' st']).
      { unfold s1. cbn [dicts]. rewrite Hd, event_entries_snoc. reflexivity. }
      assert (Hnew : dict_at s1 (S (length (evs0 ++ [(tl, sl)]))) = open_entry t' st').
      { unfold dict_at. rewrite Hd1. simpl.
        rewrite lookup_app_r
          by (rewrite length_app, event_entries_length, length_app; simpl; lia).
        rewrite !length_app, event_entries_length. simpl.
        by rewrite Nat.sub_diag. }
      assert (Hlast : dict_at s1 (S (length evs0)) = open_entry tl sl).
      { unfold dict_at. rewrite Hd1. simpl.
        rewrite lookup_app_l
          by (rewrite length_app, event_entries_length; simpl; lia).
        rewrite lookup_app_r by (rewrite event_entries_length; lia).
        by rewrite event_entries_length, Nat.sub_diag. }
      assert (Hclose :
        (s0 <- get ;;
         entered_at <- subscript (dict_at s0 (S (length (evs0 ++ [(tl, sl)])))) "entered_at" ;;
         until <- date_of entered_at ;;
         close_interval np (S (length evs0)) until) s1 = (inr tt, s2)).
      { unfold bind at 1, get. unfold bind at 1, subscript.
        rewrite Hnew, open_entry_at. unfold ret. unfold bind at 1, date_of, ret.
        rewrite (close_interval_run np _ _ s1 tl) by (by rewrite Hlast, open_entry_at).
        f_equal. unfold s2. f_equal. rewrite Hlast, Hd1. cbn [dt_date].
        rewrite !event_entries_snoc. simpl.
        rewrite insert_app_l by (rewrite length_app, event_entries_length; simpl; lia).
        rewrite insert_app_r_alt by (rewrite event_entries_length; lia).
        rewrite event_entries_length, Nat.sub_diag. simpl.
        by rewrite <- !app_assoc. }
      fold s1. erewrite bind_ok by exact Hclose. reflexivity. }
  destruct (recorded_append np created events t' st' s2) as (s' & Happ & Hrec); [done|done|].
  exists s'. split; [|exact Hrec].
  unfold record_change. rewrite (proj2 (String.eqb_eq _ _) Hf).
  fold t' st'.
  revert Hmid Happ. unfold bind, ret.
  destruct (new_dict _ s) as [[e|n1] s1]; [done|].
  destruct prev as [p|].
  - match goal with |- (let (_, _) := ?X in _) = _ -> _ =>
      destruct X as [[e|[]] s1'] end; [done|].
    intros [= <- <-] Happ. by rewrite Happ.
  - intros [= <- <-] Happ. by rewrite Happ.
Qed.

Lemma recorded_items np created h items events s prev :
  recorded np created events s prev ->
  exists prev' s',
    for_fold items prev (record_change np h) s = (inr prev', s') /\
    recorded np created
      (events ++ ((fun i => (history_created h, py_str (toString i)))
                    <$> filter (fun i => field i = "status") items)) s' prev'.
Proof.
  revert events s prev. induction items as [|item items IH]; intros events s prev Hrec.
  - exists prev, s. split; [done|]. by rewrite filter_nil, fmap_nil, app_nil_r.
  - rewrite filter_cons. destruct (decide (field item = "status")) as [Hf|Hf].
    + destruct (recorded_status np created h item events s prev Hrec Hf)
        as (s1 & Hrun1 & Hrec1).
      destruct (IH _ s1 _ Hrec1) as (prev2 & s2 & Hrun2 & Hrec2).
      exists prev2, s2. cbn [for_fold]. erewrite bind_ok by exact Hrun1.
      split; [done|]. by rewrite fmap_cons, cons_middle, app_assoc.
    + destruct (IH events s prev Hrec) as (prev2 & s2 & Hrun2 & Hrec2).
      exists prev2, s2. split; [|done]. cbn [for_fold].
      assert (Hstep : record_change np h prev item s = (inr prev, s)).
      { unfold record_change.
        by destruct (String.eqb_spec (field item) "status"). }
      by erewrite bind_ok by exact Hstep.
Qed.

Lemma recorded_histories np created histories events s prev :
  recorded np created events s prev ->
  exists prev' s',
    for_fold histories prev
      (fun prev h => for_fold (history_items h) prev (record_change np h)) s
    = (inr prev', s') /\
    recorded np created
      (events ++ concat ((fun h => (fun i => (history_created h, py_str (toString i)))
                                     <$> filter (fun i => field i = "status")
                                                (history_items h))
                           <$> histories)) s' prev'.
Proof.
  revert events s prev.
  induction histories as [|h histories IH]; intros events s prev Hrec.
  - exists prev, s. split; [done|]. by rewrite fmap_nil, app_nil_r.
  - destruct (recorded_items np created h (history_items h) events s prev Hrec)
      as (prev1 & s1 & Hrun1 & Hrec1).
    destruct (IH _ s1 _ Hrec1) as (prev2 & s2 & Hrun2 & Hrec2).
    exists prev2, s2. cbn [for_fold]. erewrite bind_ok by exact Hrun1.
    split; [done|]. rewrite fmap_cons. cbn [concat]. by rewrite app_assoc.
Qed.

(** The store [JiraIssue.__init__] leaves: the seeded entry and the entry
    of every change of status, each closed at the date of the change met
    next and the last at today's date, in the order of creation; the log is
    the stable sort of their addresses by the time of the change. *)
Lemma build_flow_log_exact np today issue :
  exists s,
    build_flow_log np today issue {| dicts := []; flow_log := [] |} = (inr tt, s) /\
    dicts s = open_entry (raw_created issue) "Created"
                :: event_entries np (status_events issue) (Some today) /\
    flow_log s = sort_by (event_key (raw_created issue) (status_events issue))
                         (seq 0 (S (length (status_events issue)))).
Proof.
  destruct (seed_appended (raw_created issue)) as [Hseed _].
  set (s2 := {| dicts := [<["state" := PyStr "Created"]>
                            ({[ "entered_at" := PyDatetime (raw_created issue);
                                "state" := PyStr "Created" ]} : gmap string pyval)];
                flow_log := [0%nat] |}) in *.
  assert (Hrec : recorded np (raw_created issue) [] s2 None).
  { split; [|done]. unfold s2. cbn [dicts event_entries].
    by rewrite <- (open_entry_coerced (raw_created issue) "Created"). }
  unfold build_flow_log.
  set (body := try_except _ _ _).
  assert (Hsplit : forall s0,
    (seed <- new_dict {[ "entered_at" := PyDatetime (raw_created issue);
                         "state" := PyStr "Created" ]} ;;
     FlowLog.append (DictAt seed) ;;; body) s0 =
    ((seed <- new_dict {[ "entered_at" := PyDatetime (raw_created issue);
                          "state" := PyStr "Created" ]} ;;
      FlowLog.append (DictAt seed)) ;;; body) s0).
  { intros s0. unfold bind. by destruct (new_dict _ s0) as [[e|a] s']. }
  rewrite Hsplit. erewrite bind_ok by exact Hseed.
  unfold body, try_except, status_events.
  destruct (raw_changelog issue) as [histories|].
  2:{ exists s2. split; [reflexivity|]. by destruct Hrec as (Hd & Hl & _). }
  erewrite (bind_ok (ret histories)) by reflexivity.
  destruct (recorded_histories np (raw_created issue) histories [] s2 None Hrec)
    as (prev & s3 & Hrun & Hd & Hl & Hp).
  erewrite bind_ok by exact Hrun.
  rewrite app_nil_l in Hd, Hl, Hp.
  set (events := concat _) in *.
  destruct (decide (events = [])) as [Hnil|Hne].
  - rewrite Hnil in *. subst prev. exists s3. split; [reflexivity|]. done.
  - destruct (exists_last Hne) as (evs0 & [tl sl] & Hev). rewrite Hev in *.
    assert (Hprev : prev = Some (S (length evs0))).
    { rewrite Hp, length_app. simpl. rewrite Nat.add_1_r. by destruct evs0. }
    subst prev. rewrite Hprev.
    assert (Hlast : dict_at s3 (S (length evs0)) = open_entry tl sl).
    { unfold dict_at. rewrite Hd, event_entries_snoc. simpl.
      rewrite lookup_app_r by (rewrite event_entries_length; lia).
      by rewrite event_entries_length, Nat.sub_diag. }
    rewrite (close_interval_run np _ today s3 tl) by (by rewrite Hlast, open_entry_at).
    eexists. split; [reflexivity|]. cbn [dicts flow_log]. split; [|done].
    rewrite Hlast, Hd, !event_entries_snoc. simpl.
    rewrite insert_app_r_alt by (rewrite event_entries_length; lia).
    by rewrite event_entries_length, Nat.sub_diag.
Qed.

Lemma fmap_lookup_seq {A} (d : A) (l : list A) :
  (fun a => default d (l !! a)) <$> seq 0 (length l) = l.
Proof.
  induction l as [|x l IH]; [done|].
  cbn [length seq]. rewrite fmap_cons. f_equal.
  rewrite <- fmap_S_seq, <- list_fmap_compose. exact IH.
Qed.

(** The constructor with the flow log it leaves, and the timeline read off
    it. *)
Lemma JiraIssue_init_exact np today issue :
  exists t,
    JiraIssue_init np today issue = inr t /\
    dicts (_flow_log t) =
      open_entry (raw_created issue) "Created"
        :: event_entries np (status_events issue) (Some today) /\
    flow_timeline t =
      sort_by entry_key
        (open_entry (raw_created issue) "Created"
           :: event_entries np (status_events issue) (Some today)).
Proof.
  destruct (build_flow_log_exact np today issue) as (s & Hrun & Hd & Hl).
  unfold JiraIssue_init. rewrite Hrun. eexists. split; [reflexivity|].
  unfold flow_timeline, timeline. cbn [_flow_log]. split; [done|].
  rewrite Hl.
  rewrite (sort_by_ext_in _ (fun a => entry_key (dict_at s a))).
  2:{ intros a Ha. apply elem_of_seq in Ha. symmetry.
      apply (key_of_recorded np _ _ (Some today) [] s a); [by rewrite app_nil_r|lia]. }
  rewrite sort_by_fmap. f_equal.
  replace (S (length (status_events issue))) with (length (dicts s))
    by (rewrite Hd; simpl; by rewrite event_entries_length).
  rewrite <- Hd. apply (fmap_lookup_seq ∅ (dicts s)).
Qed.

Lemma sort_by_entry_key_ascending (l : list (gmap string pyval)) :
  Forall (fun d => is_Some (entry_instant d)) l ->
  ascending (sort_by entry_key l).
Proof.
  intros Hall.
  assert (Hall' : Forall (fun d => is_Some (entry_instant d)) (sort_by entry_key l))
    by (by rewrite sort_by_Permutation).
  split; [done|].
  eapply StronglySorted_Forall_impl; [|exact Hall'|apply (sort_by_sorted entry_key)].
  intros d1 d2 [k1 H1] [k2 H2]. unfold entry_key, entered_le. by rewrite H1, H2.
Qed.

Lemma event_entries_have_instants np events final :
  Forall (fun d => is_Some (entry_instant d)) (event_entries np events final).
Proof.
  apply Forall_forall. intros d Hd.
  apply list_elem_of_lookup in Hd as [i Hi].
  assert (Hf : (entry_instant <$> event_entries np events final) !! i =
               Some (entry_instant d)) by (by rewrite list_lookup_fmap, Hi).
  rewrite event_entries_instant, list_lookup_fmap in Hf.
  destruct (events !! i) as [e|]; simpl in Hf; [|done].
  injection Hf as <-. by eexists.
Qed.

(** X4. The flow timeline of a ticket, whatever its change history: the
    seeded "Created" entry and one entry for each change of status, holding
    the time of the change, the name of the new state as a string and, as
    its duration, the business days from its date to the date of the change
    processed next (to today for the last one), all put in ascending order
    of their timestamps by a stable sort.  Items of the history that are
    not changes of status leave no trace. *)
Theorem flow_timeline_of_ticket :
  forall np today issue,
    exists t,
      JiraIssue_init np today issue = inr t /\
      flow_timeline t =
        sort_by entry_key
          (open_entry (raw_created issue) "Created"
             :: event_entries np (status_events issue) (Some today)) /\
      ascending (flow_timeline t).
Proof.
  intros np today issue.
  destruct (JiraIssue_init_exact np today issue) as (t & Hinit & _ & Htl).
  exists t. split; [done|]. split; [done|]. rewrite Htl.
  apply sort_by_entry_key_ascending. constructor.
  - unfold entry_instant. rewrite open_entry_at. by eexists.
  - apply event_entries_have_instants.
Qed.

(** X5. A ticket that comes without a change log, or whose change log has
    no change of status, gets a timeline of one entry, the seeded "Created"
    one, with the time of creation and no duration; the missing change log
    is not an error. *)
Theorem flow_timeline_without_status_change :
  forall np today issue,
    status_events issue = [] ->
    exists t,
      JiraIssue_init np today issue = inr t /\
      flow_timeline t = [open_entry (raw_created issue) "Created"] /\
      open_entry (raw_created issue) "Created" !! "duration" = None.
Proof.
  intros np today issue Hev.
  destruct (JiraIssue_init_exact np today issue) as (t & Hinit & _ & Htl).
  exists t. split; [done|]. rewrite Htl, Hev. split; [done|].
  apply open_entry_duration.
Qed.

Lemma flow_timeline_without_status_change_witness :
  status_events ticket_without_changelog = [] /\
  exists t,
    JiraIssue_init numpy_sample today_sample ticket_without_changelog = inr t /\
    flow_timeline t = [open_entry (raw_created ticket_without_changelog) "Created"] /\
    open_entry (raw_created ticket_without_changelog) "Created" !! "duration" = None.
Proof.
  assert (H : status_events ticket_without_changelog = []) by reflexivity.
  split; [exact H|].
  exact (flow_timeline_without_status_change numpy_sample today_sample
           ticket_without_changelog H).
Defined.

Lemma busday_count_additive fx a b c :
  a <= b <= c ->
  Numpy.busday_count fx a c = Numpy.busday_count fx a b + Numpy.busday_count fx b c.
Proof.
  intros [Hab Hbc]. rewrite !busday_count_forward by lia.
  replace (Z.to_nat (c - a)) with (Z.to_nat (b - a) + Z.to_nat (c - b))%nat by lia.
  rewrite weekdays_from_app. do 2 f_equal. lia.
Qed.

Lemma busday_count_nonneg fx a b :
  a <= b -> 0 <= Numpy.busday_count fx a b <= b - a.
Proof.
  intros Hab. rewrite busday_count_forward by lia.
  pose proof (weekdays_from_bounds a (Z.to_nat (b - a))). lia.
Qed.

Lemma duration_of_closed np t state u :
  duration_of (closed_entry np t state u) =
  Numpy.busday_count (shift_swapped np) (days_from_civil (dt_date t)) (days_from_civil u).
Proof. unfold duration_of, closed_entry. by rewrite lookup_insert_eq. Qed.

Lemma chronological_durations np today t state rest :
  chronological ((t, state) :: rest) today ->
  Forall (fun d => has_duration d /\ 0 <= duration_of d)
         (event_entries np ((t, state) :: rest) (Some today)) /\
  Zsum (duration_of <$> event_entries np ((t, state) :: rest) (Some today)) =
    Numpy.busday_count (shift_swapped np)
      (days_from_civil (dt_date t)) (days_from_civil today) /\
  days_from_civil (dt_date t) <= days_from_civil today.
Proof.
  revert t state. induction rest as [|[t1 s1] rest IH]; intros t state Hchr.
  - destruct Hchr as [Hle _]. cbn [event_entries fmap list_fmap Zsum foldr].
    rewrite duration_of_closed. split; [|split; [lia|done]].
    constructor; [|constructor]. split.
    + eexists. unfold closed_entry. by rewrite lookup_insert_eq.
    + rewrite duration_of_closed. by apply busday_count_nonneg.
  - destruct Hchr as [Hle Hchr]. destruct (IH t1 s1 Hchr) as (Hall & Hsum & Hle1).
    change (event_entries np ((t, state) :: (t1, s1) :: rest) (Some today))
      with (closed_entry np t state (dt_date t1)
              :: event_entries np ((t1, s1) :: rest) (Some today)).
    rewrite fmap_cons.
    change (Zsum (?x :: ?l)) with (x + Zsum l).
    rewrite Hsum, duration_of_closed.
    split; [|split; [|lia]].
    + constructor; [|exact Hall]. split.
      * eexists. unfold closed_entry. by rewrite lookup_insert_eq.
      * rewrite duration_of_closed. by apply busday_count_nonneg.
    + symmetry. by apply busday_count_additive.
Qed.

(** X6. When the changes of status of a ticket come in the order of their
    dates and none is after today, every entry made from a change holds a
    duration that is not negative, and these durations add up to the
    business days from the date of the first change to today: the time
    since the first change is split among the states without gap or
    overlap. *)
Theorem durations_add_up :
  forall np today issue t1 state1 rest,
    status_events issue = (t1, state1) :: rest ->
    chronological (status_events issue) today ->
    exists t entries,
      JiraIssue_init np today issue = inr t /\
      dicts (_flow_log t) = open_entry (raw_created issue) "Created" :: entries /\
      length entries = length (status_events issue) /\
      Forall (fun d => has_duration d /\ 0 <= duration_of d) entries /\
      Zsum (duration_of <$> entries) =
        Numpy.busday_count (shift_swapped np)
          (days_from_civil (dt_date t1)) (days_from_civil today).
Proof.
  intros np today issue t1 state1 rest Hev Hchr.
  destruct (JiraIssue_init_exact np today issue) as (t & Hinit & Hd & _).
  exists t, (event_entries np (status_events issue) (Some today)).
  split; [done|]. split; [done|]. split; [apply event_entries_length|].
  rewrite Hev in Hchr |- *.
  destruct (chronological_durations np today t1 state1 rest Hchr) as (Hall & Hsum & _).
  done.
Qed.

Lemma durations_add_up_witness :
  status_events ticket_done =
    [(utc 2024 1 3 9, "In Progress"); (utc 2024 1 8 16, "Done")] /\
  chronological (status_events ticket_done) today_sample /\
  exists t entries,
    JiraIssue_init numpy_sample today_sample ticket_done = inr t /\
    dicts (_flow_log t) = open_entry (raw_created ticket_done) "Created" :: entries /\
    length entries = length (status_events ticket_done) /\
    Forall (fun d => has_duration d /\ 0 <= duration_of d) entries /\
    Zsum (duration_of <$> entries) =
      Numpy.busday_count (shift_swapped numpy_sample)
        (days_from_civil (dt_date (utc 2024 1 3 9))) (days_from_civil today_sample).
Proof.
  assert (H1 : status_events ticket_done =
               [(utc 2024 1 3 9, "In Progress"); (utc 2024 1 8 16, "Done")])
    by reflexivity.
  assert (H2 : chronological (status_events ticket_done) today_sample).
  { rewrite H1. simpl. repeat split; by vm_compute. }
  split; [exact H1|]. split; [exact H2|].
  exact (durations_add_up numpy_sample today_sample ticket_done _ _ _ H1 H2).
Defined.


(** *** The fields of a ticket *)

(** X7. [JiraIssue(issue)] never raises, with or without issue type and
    change log.  The ticket keeps the time of creation and the resolution
    date as it came; its type is the name of the issue type, or "Ticket"
    when there is none; its fix version is the first of the list, or
    [None]; and its [updated_at] is [None] whatever the issue says. *)
Theorem JiraIssue_fields :
  forall np today issue,
    exists t,
      JiraIssue_init np today issue = inr t /\
      created t = raw_created issue /\
      resolutiondate t = raw_resolutiondate issue /\
      ttype t = match raw_issuetype issue with Some name => name | None => "Ticket" end /\
      fixVersion t = raw_fixVersions issue !! 0%nat /\
      updated_at t = None.
Proof.
  intros np today issue.
  destruct (build_flow_log_ok np today issue) as (s & Hrun & _).
  unfold JiraIssue_init. rewrite Hrun. eexists. split; [reflexivity|].
  cbn [created resolutiondate ttype fixVersion updated_at].
  repeat split; try done.
  by destruct (raw_fixVersions issue).
Qed.

Lemma before_colon_split s :
  exists rest,
    s = before_colon s +:+ rest /\
    (rest = EmptyString \/ exists r, rest = String ":" r) /\
    ~ In ":"%char (list_ascii_of_string (before_colon s)).
Proof.
  induction s as [|c s (rest & Hs & Hrest & Hno)].
  - exists EmptyString. simpl. by split; [|split; [left|]; auto].
  - simpl. destruct (Ascii.eqb_spec c ":") as [->|Hc].
    + exists (String ":" s). simpl. split; [done|]. split; [right; by eexists|]. auto.
    + exists rest. split.
      { change (String c (before_colon s) +:+ rest)
          with (String c (before_colon s +:+ rest)). by f_equal. }
      split; [done|]. simpl.
      intros [Heq|Hin]; [by destruct Hc|done].
Qed.

(** X8. The priority of a ticket is the text of the priority up to its
    first colon: it holds no colon, and the text is the priority followed
    by nothing or by a colon and the rest. *)
Theorem priority_is_text_before_first_colon :
  forall np today issue,
    exists t rest,
      JiraIssue_init np today issue = inr t /\
      raw_priority issue = priority t +:+ rest /\
      (rest = EmptyString \/ exists r, rest = String ":" r) /\
      ~ In ":"%char (list_ascii_of_string (priority t)).
Proof.
  intros np today issue.
  destruct (build_flow_log_ok np today issue) as (s & Hrun & _).
  destruct (before_colon_split (raw_priority issue)) as (rest & Hs & Hrest & Hno).
  unfold JiraIssue_init. rewrite Hrun. eexists _, rest. split; [reflexivity|].
  by cbn [priority].
Qed.

(** X9. The property [cycleTime] returns a number for no ticket: the value
    under 'created' is a datetime, which numpy does not take for a day
    without loss, so the count raises whatever the resolution date is. *)
Theorem cycleTime_never_returns :
  forall np today issue,
    exists t e,
      JiraIssue_init np today issue = inr t /\
      cycleTime np t = inl e.
Proof.
  intros np today issue.
  destruct (JiraIssue_init_total np today issue) as (t & Hinit & _).
  destruct (cycleTime_raises np t) as [e He].
  by exists t, e.
Qed.

(** *** More on the cache *)

(** The loop of [_getJiraIssuesForProjects] over any ids: every ticket
    found is appended to the shared list, and the projects kept are those
    that [kept] says. *)
Lemma fetch_projects_run np today client ids acc w l0 :
  lists w !! default_issues = Some l0 ->
  exists kts,
    wrapped np today (found_for client ids) kts /\
    for_fold ids acc (fetch_project np today client) w =
    (inr (kept client (length l0) ids acc),
     {| lists := <[default_issues := l0 ++ kts]> (lists w);
        _datastore := _datastore w |}).
Proof.
  revert acc w l0. induction ids as [|pid ids IH]; intros acc w l0 Hl0.
  - exists []. split; [constructor|]. cbn [for_fold kept].
    rewrite app_nil_r, list_insert_id by done. by destruct w.
  - destruct (fetch_project_run np today client acc pid w l0 Hl0) as (kts1 & Hk1 & Hrun1).
    set (w1 := {| lists := <[default_issues := l0 ++ kts1]> (lists w);
                  _datastore := _datastore w |}) in *.
    assert (Hlt : (default_issues < length (lists w))%nat) by (by eapply lookup_lt_Some).
    assert (Hl1 : lists w1 !! default_issues = Some (l0 ++ kts1)).
    { unfold w1. cbn [lists]. by rewrite list_lookup_insert_eq. }
    destruct (IH (if (0 <? length (l0 ++ kts1))%nat
                  then <[pid := JiraProject_init (project client pid) (project_query pid)]> acc
                  else acc) w1 (l0 ++ kts1) Hl1) as (kts2 & Hk2 & Hrun2).
    exists (kts1 ++ kts2). split.
    { unfold found_for. rewrite fmap_cons. cbn [concat]. by apply Forall2_app. }
    cbn [for_fold]. erewrite bind_ok by exact Hrun1. rewrite Hrun2.
    cbn [kept]. rewrite length_app, (wrapped_length _ _ _ _ Hk1).
    f_equal. unfold w1. cbn [lists _datastore].
    by rewrite list_insert_insert_eq, app_assoc.
Qed.

Lemma kept_lookup client held ids acc pid p :
  kept client held ids acc !! pid = Some p ->
  acc !! pid = Some p \/
  pid ∈ ids /\ p = JiraProject_init (project client pid) (project_query pid).
Proof.
  revert held acc. induction ids as [|pid0 ids IH]; intros held acc Hk.
  - by left.
  - cbn [kept] in Hk. destruct (IH _ _ Hk) as [Hacc|[Hin ->]].
    + destruct (0 <? _)%nat; [|by left].
      destruct (decide (pid0 = pid)) as [->|Hne].
      * rewrite lookup_insert_eq in Hacc. injection Hacc as <-.
        right. split; [left|done].
      * rewrite lookup_insert_ne in Hacc by done. by left.
    + right. split; [by right|done].
Qed.

Lemma kept_keeps client held ids acc pid :
  acc !! pid = Some (JiraProject_init (project client pid) (project_query pid)) ->
  kept client held ids acc !! pid =
    Some (JiraProject_init (project client pid) (project_query pid)).
Proof.
  revert held acc. induction ids as [|pid0 ids IH]; intros held acc Hacc; [done|].
  cbn [kept]. apply IH. destruct (0 <? _)%nat; [|done].
  destruct (decide (pid0 = pid)) as [->|Hne].
  - by rewrite lookup_insert_eq.
  - by rewrite lookup_insert_ne.
Qed.

Lemma kept_nonempty client held ids acc pid :
  (0 < held)%nat -> pid ∈ ids ->
  kept client held ids acc !! pid =
    Some (JiraProject_init (project client pid) (project_query pid)).
Proof.
  revert held acc. induction ids as [|pid0 ids IH]; intros held acc Hheld Hin.
  - by apply not_elem_of_nil in Hin.
  - cbn [kept].
    assert (Hpos : (0 <? held + length (search_issues client (project_query pid0)
                                          (Some 10%nat)))%nat = true)
      by (apply Nat.ltb_lt; lia).
    rewrite Hpos. apply elem_of_cons in Hin as [->|Hin].
    + apply kept_keeps. by rewrite lookup_insert_eq.
    + apply IH; [lia|done].
Qed.

Lemma kept_empty client ids :
  Forall (fun pid => search_issues client (project_query pid) (Some 10%nat) = []) ids ->
  forall acc, kept client 0 ids acc = acc.
Proof.
  induction 1 as [|pid ids Hpid _ IH]; intros acc; [done|].
  cbn [kept]. rewrite Hpid. exact (IH acc).
Qed.

(** [populate_projects] from a store where the shared list and the project
    cache are in place. *)
Lemma populate_projects_run np today client ids w old l0 :
  lists w !! default_issues = Some l0 ->
  _datastore w !! "projects" = Some (StoredDict old) ->
  exists kts,
    wrapped np today (found_for client ids) kts /\
    populate_projects np today client ids w =
    (inr (kept client (length l0) ids ∅),
     {| lists := <[default_issues := l0 ++ kts]> (lists w);
        _datastore := <["projects" := StoredDict (kept client (length l0) ids ∅ ∪ old)]>
                        (_datastore w) |}).
Proof.
  intros Hl0 Hold.
  destruct (fetch_projects_run np today client ids ∅ w l0 Hl0) as (kts & Hk & Hrun).
  exists kts. split; [done|].
  by rewrite (populate_projects_merge np today client ids w _ _ old Hrun Hold).
Qed.

Lemma get_project_cached pid w m p :
  _datastore w !! "projects" = Some (StoredDict m) -> m !! pid = Some p ->
  get_project pid w = (inr (ReturnedProject p), w).
Proof.
  intros Hm Hpid. unfold get_project, try_except, datastore_get, bind, get.
  rewrite Hm. cbn. by rewrite Hpid.
Qed.

(** X10. With the shared list and the project cache in place,
    [populate_projects] never raises.  What it returns holds only ids that
    were asked for, each bound to the result set made for it; the cache
    afterwards binds every returned id to the returned result set and every
    other id to what it was bound to before; no other key of the data store
    changes. *)
Theorem populate_projects_merges_into_cache :
  forall np today client ids w old l0,
    lists w !! default_issues = Some l0 ->
    _datastore w !! "projects" = Some (StoredDict old) ->
    exists fetched w' cache,
      populate_projects np today client ids w = (inr fetched, w') /\
      _datastore w' !! "projects" = Some (StoredDict cache) /\
      (forall pid p, fetched !! pid = Some p ->
         cache !! pid = Some p /\ pid ∈ ids /\
         p = JiraProject_init (project client pid) (project_query pid)) /\
      (forall pid, fetched !! pid = None -> cache !! pid = old !! pid) /\
      (forall k, k <> "projects" -> _datastore w' !! k = _datastore w !! k).
Proof.
  intros np today client ids w old l0 Hl0 Hold.
  destruct (populate_projects_run np today client ids w old l0 Hl0 Hold)
    as (kts & _ & Hrun).
  eexists _, _, _. split; [exact Hrun|]. cbn [_datastore].
  split; [by rewrite lookup_insert_eq|]. split; [|split].
  - intros pid p Hp. split; [by rewrite merged_lookup, Hp|].
    destruct (kept_lookup _ _ _ _ _ _ Hp) as [Hempty|[Hin ->]]; [|done].
    by rewrite lookup_empty in Hempty.
  - intros pid Hp. by rewrite merged_lookup, Hp.
  - intros k Hk. by rewrite lookup_insert_ne.
Qed.

Lemma populate_projects_merges_into_cache_witness :
  lists jira_sample !! default_issues = Some [] /\
  _datastore jira_sample !! "projects" = Some (StoredDict ∅) /\
  exists fetched w' cache,
    populate_projects numpy_sample today_sample client_sample ["P1"; "P2"] jira_sample
      = (inr fetched, w') /\
    _datastore w' !! "projects" = Some (StoredDict cache) /\
    (forall pid p, fetched !! pid = Some p ->
       cache !! pid = Some p /\ pid ∈ ["P1"; "P2"] /\
       p = JiraProject_init (project client_sample pid) (project_query pid)) /\
    (forall pid, fetched !! pid = None -> cache !! pid = (∅ : gmap string JiraProject) !! pid) /\
    (forall k, k <> "projects" -> _datastore w' !! k = _datastore jira_sample !! k).
Proof.
  assert (H1 : lists jira_sample !! default_issues = Some []) by reflexivity.
  assert (H2 : _datastore jira_sample !! "projects" = Some (StoredDict ∅))
    by (vm_compute; reflexivity).
  split; [exact H1|]. split; [exact H2|].
  exact (populate_projects_merges_into_cache numpy_sample today_sample client_sample
           ["P1"; "P2"] jira_sample ∅ [] H1 H2).
Defined.

(** X11. Every result set that [populate_projects] returns shows the same
    records: what the shared list held before the call, followed by the
    wrapped tickets found for all the ids of the call, in the order of the
    ids; not the tickets of its own project alone. *)
Theorem fetched_projects_share_records :
  forall np today client ids w old l0,
    lists w !! default_issues = Some l0 ->
    _datastore w !! "projects" = Some (StoredDict old) ->
    exists kts fetched w',
      wrapped np today (found_for client ids) kts /\
      populate_projects np today client ids w = (inr fetched, w') /\
      (forall pid (p : JiraProject), fetched !! pid = Some p -> issues w' p = l0 ++ kts).
Proof.
  intros np today client ids w old l0 Hl0 Hold.
  destruct (populate_projects_run np today client ids w old l0 Hl0 Hold)
    as (kts & Hk & Hrun).
  eexists kts, _, _. split; [done|]. split; [exact Hrun|].
  intros pid p Hp.
  destruct (kept_lookup _ _ _ _ _ _ Hp) as [Hempty|[_ ->]];
    [by rewrite lookup_empty in Hempty|].
  unfold issues. cbn [lists JiraProject_init JQLResult_init as_JQLResult _issues
                      default from_option id].
  rewrite list_lookup_insert_eq by (by eapply lookup_lt_Some). done.
Qed.

Lemma fetched_projects_share_records_witness :
  lists jira_sample !! default_issues = Some [] /\
  _datastore jira_sample !! "projects" = Some (StoredDict ∅) /\
  exists kts fetched w',
    wrapped numpy_sample today_sample (found_for client_sample ["P1"; "P2"]) kts /\
    populate_projects numpy_sample today_sample client_sample ["P1"; "P2"] jira_sample
      = (inr fetched, w') /\
    (forall pid (p : JiraProject), fetched !! pid = Some p -> issues w' p = [] ++ kts).
Proof.
  assert (H1 : lists jira_sample !! default_issues = Some []) by reflexivity.
  assert (H2 : _datastore jira_sample !! "projects" = Some (StoredDict ∅))
    by (vm_compute; reflexivity).
  split; [exact H1|]. split; [exact H2|].
  exact (fetched_projects_share_records numpy_sample today_sample client_sample
           ["P1"; "P2"] jira_sample ∅ [] H1 H2).
Defined.

Lemma found_for_empty client ids :
  Forall (fun pid => search_issues client (project_query pid) (Some 10%nat) = []) ids ->
  found_for client ids = [].
Proof.
  unfold found_for. induction 1 as [|pid ids Hpid _ IH]; [done|].
  rewrite fmap_cons. cbn [concat]. by rewrite Hpid, IH.
Qed.

(** X12. While the shared list is empty, projects without tickets are
    skipped: when no id of the call has a ticket, [populate_projects]
    returns the empty mapping and leaves the store as it was. *)
Theorem populate_projects_skips_while_list_empty :
  forall np today client ids w old,
    lists w !! default_issues = Some [] ->
    _datastore w !! "projects" = Some (StoredDict old) ->
    Forall (fun pid => search_issues client (project_query pid) (Some 10%nat) = []) ids ->
    populate_projects np today client ids w = (inr ∅, w).
Proof.
  intros np today client ids w old Hl0 Hold Hnone.
  destruct (populate_projects_run np today client ids w old [] Hl0 Hold)
    as (kts & Hk & Hrun).
  rewrite (found_for_empty client ids Hnone) in Hk.
  apply Forall2_nil_inv_l in Hk as ->.
  rewrite Hrun. cbn [length app]. rewrite (kept_empty client ids Hnone).
  f_equal. rewrite (left_id_L ∅ (∪)), list_insert_id, insert_id by done.
  by destruct w.
Qed.

Lemma populate_projects_skips_while_list_empty_witness :
  lists jira_sample !! default_issues = Some [] /\
  _datastore jira_sample !! "projects" = Some (StoredDict ∅) /\
  Forall (fun pid => search_issues client_sample (project_query pid) (Some 10%nat) = [])
         ["P2"; "P3"] /\
  populate_projects numpy_sample today_sample client_sample ["P2"; "P3"] jira_sample
    = (inr ∅, jira_sample).
Proof.
  assert (H1 : lists jira_sample !! default_issues = Some []) by reflexivity.
  assert (H2 : _datastore jira_sample !! "projects" = Some (StoredDict ∅))
    by (vm_compute; reflexivity).
  assert (H3 : Forall (fun pid => search_issues client_sample (project_query pid)
                                    (Some 10%nat) = []) ["P2"; "P3"])
    by (repeat constructor).
  split; [exact H1|]. split; [exact H2|]. split; [exact H3|].
  exact (populate_projects_skips_while_list_empty numpy_sample today_sample client_sample
           ["P2"; "P3"] jira_sample ∅ H1 H2 H3).
Defined.

(** X13. Once the shared list holds a ticket, no project is skipped any
    more: every id of the call is returned and cached, with or without
    tickets of its own.  [Jira.__init__] does not touch the shared list, so
    this also holds for a [Jira] made later in the same program. *)
Theorem nothing_skipped_once_list_nonempty :
  forall np today client ids w old l0,
    lists w !! default_issues = Some l0 ->
    l0 <> [] ->
    _datastore w !! "projects" = Some (StoredDict old) ->
    lists (Jira_init w).2 = lists w /\
    exists fetched w',
      populate_projects np today client ids w = (inr fetched, w') /\
      (forall pid, pid ∈ ids ->
         fetched !! pid =
           Some (JiraProject_init (project client pid) (project_query pid)) /\
         get_project pid w' =
           (inr (ReturnedProject
                   (JiraProject_init (project client pid) (project_query pid))), w')).
Proof.
  intros np today client ids w old l0 Hl0 Hne Hold. split; [done|].
  destruct (populate_projects_run np today client ids w old l0 Hl0 Hold)
    as (kts & _ & Hrun).
  eexists _, _. split; [exact Hrun|]. intros pid Hin.
  assert (Hk : kept client (length l0) ids ∅ !! pid =
               Some (JiraProject_init (project client pid) (project_query pid))).
  { apply kept_nonempty; [|done]. destruct l0; [done|simpl; lia]. }
  split; [done|].
  eapply get_project_cached.
  - cbn [_datastore]. by rewrite lookup_insert_eq.
  - by rewrite merged_lookup, Hk.
Qed.

Lemma nothing_skipped_once_list_nonempty_witness :
  lists (Jira_init jira_after_P1).2 !! default_issues = Some (shared_list jira_after_P1) /\
  shared_list jira_after_P1 <> [] /\
  _datastore (Jira_init jira_after_P1).2 !! "projects" = Some (StoredDict ∅) /\
  lists (Jira_init (Jira_init jira_after_P1).2).2 = lists (Jira_init jira_after_P1).2 /\
  exists fetched w',
    populate_projects numpy_sample today_sample client_sample ["P2"]
      (Jira_init jira_after_P1).2 = (inr fetched, w') /\
    (forall pid, pid ∈ ["P2"] ->
       fetched !! pid =
         Some (JiraProject_init (project client_sample pid) (project_query pid)) /\
       get_project pid w' =
         (inr (ReturnedProject
                 (JiraProject_init (project client_sample pid) (project_query pid))), w')).
Proof.
  assert (H1 : lists (Jira_init jira_after_P1).2 !! default_issues
               = Some (shared_list jira_after_P1)) by (vm_compute; reflexivity).
  assert (H2 : shared_list jira_after_P1 <> []) by (vm_compute; discriminate).
  assert (H3 : _datastore (Jira_init jira_after_P1).2 !! "projects" = Some (StoredDict ∅))
    by (vm_compute; reflexivity).
  split; [exact H1|]. split; [exact H2|]. split; [exact H3|].
  exact (nothing_skipped_once_list_nonempty numpy_sample today_sample client_sample
           ["P2"] (Jira_init jira_after_P1).2 ∅ (shared_list jira_after_P1) H1 H2 H3).
Defined.

(** X14. A project that [populate_projects] returns is found again by
    [get_project] under its id, with the key and the name the client gave,
    the name as its label, and the query that fetched it. *)
Theorem get_project_after_populate :
  forall np today client ids w old l0,
    lists w !! default_issues = Some l0 ->
    _datastore w !! "projects" = Some (StoredDict old) ->
    exists fetched w',
      populate_projects np today client ids w = (inr fetched, w') /\
      (forall pid (p : JiraProject),
         fetched !! pid = Some p ->
         get_project pid w' = (inr (ReturnedProject p), w') /\
         _key p = project_key (project client pid) /\
         _name p = project_name (project client pid) /\
         _label p = project_name (project client pid) /\
         _query p = project_query pid).
Proof.
  intros np today client ids w old l0 Hl0 Hold.
  destruct (populate_projects_run np today client ids w old l0 Hl0 Hold)
    as (kts & _ & Hrun).
  eexists _, _. split; [exact Hrun|]. intros pid p Hp. split.
  - eapply get_project_cached.
    + cbn [_datastore]. by rewrite lookup_insert_eq.
    + by rewrite merged_lookup, Hp.
  - destruct (kept_lookup _ _ _ _ _ _ Hp) as [Hempty|[_ ->]]; [|done].
    by rewrite lookup_empty in Hempty.
Qed.

Lemma get_project_after_populate_witness :
  lists jira_sample !! default_issues = Some [] /\
  _datastore jira_sample !! "projects" = Some (StoredDict ∅) /\
  exists fetched w',
    populate_projects numpy_sample today_sample client_sample ["P1"] jira_sample
      = (inr fetched, w') /\
    (forall pid (p : JiraProject),
       fetched !! pid = Some p ->
       get_project pid w' = (inr (ReturnedProject p), w') /\
       _key p = project_key (project client_sample pid) /\
       _name p = project_name (project client_sample pid) /\
       _label p = project_name (project client_sample pid) /\
       _query p = project_query pid).
Proof.
  assert (H1 : lists jira_sample !! default_issues = Some []) by reflexivity.
  assert (H2 : _datastore jira_sample !! "projects" = Some (StoredDict ∅))
    by (vm_compute; reflexivity).
  split; [exact H1|]. split; [exact H2|].
  exact (get_project_after_populate numpy_sample today_sample client_sample
           ["P1"] jira_sample ∅ [] H1 H2).
Defined.

(** X15. When the key "projects" of the data store is bound to a query
    result, [populate_projects] raises [TypeError], but only after the
    fetch: the tickets found are already appended to the shared list when
    it raises; the data store itself is as before. *)
Theorem populate_projects_raises_after_fetch :
  forall np today client ids w r l0,
    lists w !! default_issues = Some l0 ->
    _datastore w !! "projects" = Some (StoredResult r) ->
    exists kts w',
      wrapped np today (found_for client ids) kts /\
      populate_projects np today client ids w = (inl TypeError, w') /\
      lists w' !! default_issues = Some (l0 ++ kts) /\
      _datastore w' = _datastore w.
Proof.
  intros np today client ids w r l0 Hl0 Hr.
  destruct (fetch_projects_run np today client ids ∅ w l0 Hl0) as (kts & Hk & Hrun).
  eexists kts, _. split; [done|]. split.
  - unfold populate_projects, _getJiraIssuesForProjects.
    erewrite bind_ok by exact Hrun.
    unfold datastore_get, bind, get, as_mapping, raise. cbn [_datastore].
    by rewrite Hr.
  - cbn [lists _datastore]. split; [|done].
    by rewrite list_lookup_insert_eq by (by eapply lookup_lt_Some).
Qed.

Lemma populate_projects_raises_after_fetch_witness :
  lists jira_projects_overwritten !! default_issues = Some [] /\
  _datastore jira_projects_overwritten !! "projects" =
    Some (StoredResult (JQLResult_init "project = P1" "projects" (Some 1%nat))) /\
  exists kts w',
    wrapped numpy_sample today_sample (found_for client_sample ["P1"]) kts /\
    populate_projects numpy_sample today_sample client_sample ["P1"]
      jira_projects_overwritten = (inl TypeError, w') /\
    lists w' !! default_issues = Some ([] ++ kts) /\
    _datastore w' = _datastore jira_projects_overwritten.
Proof.
  assert (H1 : lists jira_projects_overwritten !! default_issues = Some [])
    by (vm_compute; reflexivity).
  assert (H2 : _datastore jira_projects_overwritten !! "projects" =
               Some (StoredResult (JQLResult_init "project = P1" "projects" (Some 1%nat))))
    by (vm_compute; reflexivity).
  split; [exact H1|]. split; [exact H2|].
  exact (populate_projects_raises_after_fetch numpy_sample today_sample client_sample
           ["P1"] jira_projects_overwritten _ [] H1 H2).
Defined.

(** X16. What [populate_from_jql] stores is what [get_query_result] then
    returns under the same label, whatever the label was bound to before:
    the result with the query text, the label and, as its records, the
    wrapped tickets of the search in the order the client returned them. *)
Theorem get_query_result_after_populate :
  forall np today client query label w,
    exists kts r w',
      wrapped np today (search_issues client query None) kts /\
      populate_from_jql np today client (Some query) label w = (inr r, w') /\
      get_query_result label w' = (inr (StoredResult r), w') /\
      _query r = query /\ _label r = label /\
      issues w' r = kts.
Proof.
  intros np today client query label w.
  destruct (populate_from_jql_run np today client query label w) as (kts & Hk & Hrun).
  eexists kts, _, _. split; [done|]. split; [exact Hrun|].
  split; [|split; [done|split; [done|]]].
  - unfold get_query_result, datastore_get, bind, get. cbn [_datastore].
    by rewrite lookup_insert_eq.
  - unfold issues. cbn [lists JQLResult_init _issues default from_option id].
    rewrite lookup_app_r by done. by rewrite Nat.sub_diag.
Qed.

(** X17. [populate_from_jql] puts the tickets in a list of its own: every
    list that existed, the shared list of the projects among them, holds
    what it held, so every result stored before shows the records it
    showed; and no key of the data store but the label changes. *)
Theorem populate_from_jql_changes_only_its_label :
  forall np today client query label w (earlier : JQLResult) k,
    (_issues earlier < length (lists w))%nat ->
    k <> label ->
    exists r w',
      populate_from_jql np today client (Some query) label w = (inr r, w') /\
      issues w' earlier = issues w earlier /\
      _datastore w' !! k = _datastore w !! k /\
      _issues r <> _issues earlier.
Proof.
  intros np today client query label w earlier k Hlt Hk.
  destruct (populate_from_jql_run np today client query label w) as (kts & _ & Hrun).
  eexists _, _. split; [exact Hrun|]. split; [|split].
  - unfold issues. cbn [lists]. by rewrite lookup_app_l.
  - cbn [_datastore]. by rewrite lookup_insert_ne.
  - cbn [JQLResult_init _issues default from_option id]. lia.
Qed.

Lemma populate_from_jql_changes_only_its_label_witness :
  (_issues (JiraProject_init (project client_sample "P1") (project_query "P1"))
     < length (lists jira_after_P1))%nat /\
  "projects" <> default_label /\
  exists r w',
    populate_from_jql numpy_sample today_sample client_sample
      (Some "project = P1") default_label jira_after_P1 = (inr r, w') /\
    issues w' (JiraProject_init (project client_sample "P1") (project_query "P1"))
      = issues jira_after_P1
          (JiraProject_init (project client_sample "P1") (project_query "P1")) /\
    _datastore w' !! "projects" = _datastore jira_after_P1 !! "projects" /\
    _issues r <> _issues (JiraProject_init (project client_sample "P1") (project_query "P1")).
Proof.
  assert (H1 : (_issues (JiraProject_init (project client_sample "P1") (project_query "P1"))
                  < length (lists jira_after_P1))%nat) by (vm_compute; lia).
  assert (H2 : "projects" <> default_label) by discriminate.
  split; [exact H1|]. split; [exact H2|].
  exact (populate_from_jql_changes_only_its_label numpy_sample today_sample client_sample
           "project = P1" default_label jira_after_P1
           (JiraProject_init (project client_sample "P1") (project_query "P1"))
           "projects" H1 H2).
Defined.

(** X18. [get_project] changes nothing in the store and never raises
    [KeyError], cached id or not: a lookup that fails is answered with a
    returned value. *)
Theorem get_project_never_raises_KeyError :
  forall pid w,
    (get_project pid w).2 = w /\
    forall k, (get_project pid w).1 <> inl (KeyError k).
Proof.
  intros pid w. unfold get_project, try_except, datastore_get, bind, get.
  cbn [fst snd].
  destruct (_datastore w !! "projects") as [[m|r]|]; cbn; [|done|done].
  by destruct (m !! pid).
Qed.

(** *** A sort that fails *)

Lemma sort_keys_missing s l b :
  b ∈ l -> dict_at s b !! "entered_at" = None ->
  sort_keys s l = inl (KeyError "entered_at").
Proof.
  intros Hb Hnone. induction l as [|a l IH]; [by apply not_elem_of_nil in Hb|].
  cbn [sort_keys]. unfold sort_key at 1.
  destruct (dict_at s a !! "entered_at") as [v|] eqn:Ha; [|done].
  apply elem_of_cons in Hb as [->|Hb]; [congruence|].
  by rewrite (IH Hb).
Qed.

(** X19. The new entry is appended before the log is sorted.  So when an
    entry already in the log holds no [entered_at], appending an entry that
    passes the checks raises the [KeyError] of the sort key, and the new
    entry is in the log all the same, at the end, with its state coerced. *)
Theorem append_stays_when_sort_raises :
  forall s a b,
    passes_validation s (DictAt a) = true ->
    b ∈ flow_log s ->
    dict_at s b !! "entered_at" = None ->
    exists state,
      dict_at s a !! "state" = Some state /\
      FlowLog.append (DictAt a) s =
      (inl (KeyError "entered_at"), appended s a state) /\
      flow_log (appended s a state) = flow_log s ++ [a].
Proof.
  intros s a b Hv Hb Hnone.
  destruct (passes_validation_dict s a Hv) as (t & state & Ht & Hst).
  exists state. split; [done|]. split; [|done].
  rewrite append_dict, Ht, Hst.
  assert (Hab : a <> b) by congruence.
  unfold sort_by_entered_at, bind, get, lift.
  rewrite (sort_keys_missing (appended s a state) _ b); [done| |].
  - cbn [appended flow_log]. apply elem_of_app. by left.
  - rewrite dict_at_appended. by rewrite decide_False.
Qed.

Lemma append_stays_when_sort_raises_witness :
  passes_validation log_with_broken_entry (DictAt 1) = true /\
  0%nat ∈ flow_log log_with_broken_entry /\
  dict_at log_with_broken_entry 0 !! "entered_at" = None /\
  exists state,
    dict_at log_with_broken_entry 1 !! "state" = Some state /\
    FlowLog.append (DictAt 1) log_with_broken_entry =
    (inl (KeyError "entered_at"), appended log_with_broken_entry 1 state) /\
    flow_log (appended log_with_broken_entry 1 state) =
      flow_log log_with_broken_entry ++ [1%nat].
Proof.
  assert (H1 : passes_validation log_with_broken_entry (DictAt 1) = true) by reflexivity.
  assert (H2 : 0%nat ∈ flow_log log_with_broken_entry) by apply list_elem_of_here.
  assert (H3 : dict_at log_with_broken_entry 0 !! "entered_at" = None) by reflexivity.
  split; [exact H1|]. split; [exact H2|]. split; [exact H3|].
  exact (append_stays_when_sort_raises log_with_broken_entry 1 0 H1 H2 H3).
Defined.

(** ** The order of the log when a timestamp may lack an offset *)

Lemma tz_append_dict s a :
  Tz.append (DictAt a) s =
  match Tz.dict_at s a !! "entered_at" with
  | None => (inl (KeyError "entered_at"), s)
  | Some v =>
      match Tz.datetime_key v with
      | None => (inl TypeError, s)
      | Some _ =>
          match Tz.dict_at s a !! "state" with
          | None => (inl (KeyError "state"), s)
          | Some state => Tz.sort_by_entered_at (Tz.appended s a state)
          end
      end
  end.
Proof.
  unfold Tz.append, bind, try_except, ret, raise, get, Tz.subscript, Tz.setitem,
    modify, Tz.tzinfo, Tz.now_minus, Tz.appended.
  simpl.
  destruct (Tz.dict_at s a !! "entered_at") as [[[]|]|]; simpl; try reflexivity;
    destruct (Tz.dict_at s a !! "state"); reflexivity.
Qed.








(** The two checks of [append] pass exactly for a dictionary whose
    [entered_at] is a datetime of either kind and which has a state;
    any other value is refused and nothing is written. *)
Lemma tz_passes_validation_kinds s value :
  Tz.passes_validation s value =
  Tz.validated_as true s value || Tz.validated_as false s value.
Proof.
  destruct value as [a|v]; [|done]. unfold Tz.passes_validation, Tz.validated_as.
  destruct (Tz.entry_key (Tz.dict_at s a)) as [[[] k]|]; [| |done];
    by destruct (Tz.dict_at s a !! "state").
Qed.

Lemma tz_append_refused s value :
  Tz.passes_validation s value = false ->
  exists e, Tz.append value s = (inl e, s).
Proof.
  destruct value as [a|v]; [|by exists TypeError].
  rewrite tz_append_dict. unfold Tz.passes_validation, Tz.entry_key.
  destruct (Tz.dict_at s a !! "entered_at") as [v|]; [|by eexists].
  simpl. destruct (Tz.datetime_key v) as [[aware k]|]; [|by eexists].
  destruct (Tz.dict_at s a !! "state"); [done|by eexists].
Qed.



(** The same run, computed. *)
Example three_naive_appended :
  exists s,
    Tz.append_all [DictAt 0; DictAt 1; DictAt 2] Tz.three_naive = (inr tt, s) /\
    Tz.log s = [1; 0; 2]%nat /\
    (fun d => d !! "state") <$> Tz.timeline s =
      [Some (Tz.Base (PyStr "A")); Some (Tz.Base (PyStr "B")); Some (Tz.Base (PyStr "7"))].
Proof.
  eexists. split; [vm_compute; reflexivity|].
  split; vm_compute; reflexivity.
Qed.


(** ** The shared list on a later call *)

(** [populate_projects(["P1", "P2"])] on a [Jira] that has fetched P1
    before, so that the shared list holds the ticket of P1 already.  The
    search finds one ticket for P1 and none for P2, and the result set of
    P2, returned and cached, reports two records. *)
Lemma default_issues_second_call_counterexample :
  exists fetched w' (proj2 : JiraProject) cache,
    length (search_issues client_sample (project_query "P1") (Some 10%nat)) = 1%nat /\
    search_issues client_sample (project_query "P2") (Some 10%nat) = [] /\
    length (shared_list jira_after_P1) = 1%nat /\
    populate_projects numpy_sample today_sample client_sample ["P1"; "P2"] jira_after_P1
      = (inr fetched, w') /\
    fetched !! "P2" = Some proj2 /\
    _datastore w' !! "projects" = Some (StoredDict cache) /\
    cache !! "P2" = Some proj2 /\
    length (issues w' proj2) = 2%nat.
Proof.
  do 4 eexists.
  split; [vm_compute; reflexivity|]. split; [reflexivity|].
  split; [vm_compute; reflexivity|].
  split; [vm_compute; reflexivity|].
  split; [vm_compute; reflexivity|].
  split; [vm_compute; reflexivity|].
  split; vm_compute; reflexivity.
Qed.

(** ** [Tz.append] on timestamps that all carry an offset *)

(** On a store whose datetimes all carry an offset, [Tz.append] does what
    [FlowLog.append] of the first model does: same outcome, same store. *)

Lemma tz_dict_at_store s a : Tz.dict_at (tz_store s) a = Tz.Base <$> dict_at s a.
Proof.
  unfold Tz.dict_at, dict_at, tz_store. cbn [Tz.dicts].
  rewrite list_lookup_fmap. destruct (dicts s !! a); simpl; [done|].
  by rewrite fmap_empty.
Qed.

Lemma tz_appended_store s a state :
  Tz.appended (tz_store s) a (Tz.Base state) = tz_store (appended s a state).
Proof.
  unfold Tz.appended, appended, tz_store. cbn [Tz.dicts Tz.log dicts flow_log].
  f_equal. rewrite list_fmap_insert. f_equal.
  rewrite fmap_insert. f_equal.
  change (Tz.dict_at (tz_store s) a = Tz.Base <$> dict_at s a).
  apply tz_dict_at_store.
Qed.

Lemma tz_sort_keys_store s l :
  Tz.sort_keys (tz_store s) l =
  match sort_keys s l with
  | inl e => inl e
  | inr vs => inr (Tz.Base <$> vs)
  end.
Proof.
  induction l as [|a l IH]; [done|].
  cbn [Tz.sort_keys sort_keys]. unfold Tz.sort_key, sort_key.
  rewrite tz_dict_at_store, lookup_fmap.
  destruct (dict_at s a !! "entered_at") as [v|]; simpl; [|done].
  rewrite IH. by destruct (sort_keys s l).
Qed.

Lemma tz_keys_of_store vs :
  Tz.keys_of true (Tz.Base <$> vs) = instants vs.
Proof.
  induction vs as [|v vs IH]; [done|].
  rewrite fmap_cons. cbn [Tz.keys_of instants].
  destruct v; try done. cbn [Tz.datetime_key Bool.eqb]. by rewrite IH.
Qed.

Lemma tz_comparable_keys_store vs :
  Tz.comparable_keys (Tz.Base <$> vs) = instants vs.
Proof.
  destruct vs as [|v vs]; [done|].
  unfold Tz.comparable_keys. rewrite fmap_cons.
  destruct v; try done.
  cbn [Tz.datetime_key]. rewrite <- fmap_cons. apply tz_keys_of_store.
Qed.

Lemma tz_sort_store s :
  Tz.sort_by_entered_at (tz_store s) = tz_outcome (sort_by_entered_at s).
Proof.
  unfold Tz.sort_by_entered_at, sort_by_entered_at, tz_outcome, bind, get, lift, put.
  cbn [Tz.log tz_store]. rewrite tz_sort_keys_store.
  destruct (sort_keys s (flow_log s)) as [e|vs]; [done|].
  rewrite tz_comparable_keys_store.
  by destruct (instants vs).
Qed.

Theorem tz_append_agrees value s :
  Tz.append value (tz_store s) = tz_outcome (FlowLog.append value s).
Proof.
  destruct value as [a|v]; [|done].
  rewrite tz_append_dict, append_dict, tz_dict_at_store, !lookup_fmap.
  destruct (dict_at s a !! "entered_at") as [v|]; [|done].
  destruct v; try done. cbn [fmap option_fmap option_map Tz.datetime_key].
  destruct (dict_at s a !! "state") as [state|]; [|done].
  cbn [fmap option_fmap option_map].
  rewrite tz_appended_store. apply tz_sort_store.
Qed.
